(** * Recipe API: a shallow embedding of [api.py]

    The module [api.py] answers free-text recipe queries through a
    cache-aside layer in front of an embedding model and a Redis vector
    index, and counts clicks per (query, link) pair in Redis hashes.

    The Python functions are embedded as computations in a state-and-
    exception monad over a [World]: the Redis keyspace together with the
    trace of calls made to the external collaborators (encoder, search
    index, Redis).  Whatever the collaborators decide (results, failures)
    is gathered in an environment record [Env]. *)

From Stdlib Require Import ZArith Lia.
From stdpp Require Import base strings list gmap.

Open Scope Z_scope.

(** ** Python exceptions *)

(** The exception classes that matter to the handlers of [api.py].  All of
    them derive from [Exception]; [OutOfMemoryError] is the class of
    [redis.exceptions] (a [ResponseError]) and has no subclass. *)
Inductive ExcClass : Type :=
  | OutOfMemoryError
  | ResponseError
  | ConnectionError
  | TimeoutError
  | SyntaxError
  | OtherException (name : string).

(** An exception instance: its class and the text [str(e)] gives. *)
Record Exn : Type := mkExn { exc_class : ExcClass; exc_str : string }.

(** [isinstance(e, redis.exceptions.OutOfMemoryError)] *)
Definition is_OutOfMemoryError (e : Exn) : bool :=
  match exc_class e with
  | OutOfMemoryError => true
  | _ => false
  end.

(** [isinstance(e, Exception)]: every modelled class derives from it. *)
Definition is_Exception (e : Exn) : bool := true.

(** ** Values *)

(** A result item, the dict [{"title": ..., "link": ...}]. *)
Abbreviation Item := (gmap string string).

(** A document returned by the search index: its attributes by name. *)
Abbreviation Doc := (gmap string string).

(** [getattr(doc, name, default)] *)
Definition getattr (doc : Doc) (name default : string) : string :=
  match doc !! name with
  | Some v => v
  | None => default
  end.

(** Python's [lst[start:stop]] on a list, for arbitrary integer bounds:
    a negative bound counts from the end, and both are clamped to
    [0 .. len(lst)]. *)
Definition slice_bound (len i : Z) : Z :=
  if i <? 0 then Z.max 0 (i + len) else Z.min i len.

Definition py_slice {A : Type} (l : list A) (start stop : Z) : list A :=
  let len := Z.of_nat (length l) in
  let lo := slice_bound len start in
  let hi := slice_bound len stop in
  take (Z.to_nat (hi - lo)) (drop (Z.to_nat lo) l).

(** ** The Redis keyspace *)

(** A key holds either a string with its time to live (written by SETEX)
    or a hash of integer fields (written by HSET / HINCRBY). *)
Inductive RedisValue : Type :=
  | RString (payload : string) (ttl : Z)
  | RHash (fields : gmap string Z).

(** The commands [api.py] sends to Redis. *)
Inductive RedisCmd : Type :=
  | GET (key : string)
  | SETEX (key : string) (ttl : Z) (value : string)
  | EXISTS (key : string)
  | HINCRBY (key field : string) (amount : Z)
  | HSET (key : string) (mapping : gmap string Z).

(** A call to an external collaborator. *)
Inductive Event : Type :=
  | EncoderCall (text : string)
  | SearchCall (query_vector : string)
  | RedisCall (cmd : RedisCmd).

Record World : Type := mkWorld {
  db : gmap string RedisValue;
  trace : list Event
}.

(** The world after one more call. *)
Definition record_call (ev : Event) (w : World) : World :=
  {| db := db w; trace := trace w ++ [ev] |}.

Definition set_db (d : gmap string RedisValue) (w : World) : World :=
  {| db := d; trace := trace w |}.

(** ** The monad of [api.py] computations *)

Inductive Outcome (A : Type) : Type :=
  | Return (a : A)
  | Raise (e : Exn).
Arguments Return {A} a.
Arguments Raise {A} e.

Definition M (A : Type) : Type := World → Outcome A * World.

Definition ret {A : Type} (a : A) : M A := fun w => (Return a, w).

Definition raise {A : Type} (e : Exn) : M A := fun w => (Raise e, w).

Definition bind {A B : Type} (m : M A) (k : A → M B) : M B :=
  fun w =>
    match m w with
    | (Return a, w') => k a w'
    | (Raise e, w') => (Raise e, w')
    end.

#[global] Instance M_ret : MRet M := @ret.
#[global] Instance M_bind : MBind M := fun A B k m => bind m k.
#[global] Typeclasses Opaque M.

(** An outcome decided outside the program, as a computation. *)
Definition lift {A : Type} (o : Outcome A) : M A := fun w => (o, w).

(** [try: body / except <class> as e: handler e] *)
Definition try_except {A : Type}
    (body : M A) (catches : Exn → bool) (handler : Exn → M A) : M A :=
  fun w =>
    match body w with
    | (Return a, w') => (Return a, w')
    | (Raise e, w') => if catches e then handler e w' else (Raise e, w')
    end.

(** Calls of [LOGGER.error] / [LOGGER.warning]: no effect on the world. *)
Definition LOGGER_error : M unit := ret tt.
Definition LOGGER_warning : M unit := ret tt.

(** ** The external collaborators *)

(** Everything the environment decides.  Each oracle sees the world at the
    time of the call, so that a collaborator may fail once and succeed
    later. *)
Record Env : Type := mkEnv {
  (** the type of [EMBEDDINGS_MODEL.encode([text]).tolist()[0]] *)
  Embedding : Type;
  (** [EMBEDDINGS_MODEL.encode([text]).tolist()[0]] *)
  encode : World → string → Outcome Embedding;
  (** [np.array(v, dtype=np.float16).tobytes()] *)
  float16_tobytes : Embedding → string;
  (** [REDIS_CLIENT.ft("idx:recipes").search(QUERY, {"query_vector": b}).docs] *)
  ft_search : World → string → Outcome (list Doc);
  (** whether Redis refuses a command (connection lost, memory exhausted,
      timeout, arithmetic overflow, ...) and with which exception *)
  redis_fault : World → RedisCmd → option Exn;
  (** Python's [str] on a list of items *)
  py_str : list Item → string;
  (** Python's [eval] on a cached payload, at the type the annotation
      [Optional[List[dict]]] of [get_cached_results] gives it: a list of
      items, or an exception for a payload that does not parse *)
  py_eval : string → Outcome (list Item)
}.

(** ** The program *)

Section Api.

Context (env : Env).

(** *** Global variables *)

(** Cache expiration time in seconds *)
Definition CACHE_EXPIRATION : Z := 3.

(** *** The Redis client *)

Definition WRONGTYPE : Exn :=
  mkExn ResponseError
    "WRONGTYPE Operation against a key holding the wrong kind of value".

(** One round trip to Redis: the call is recorded, then either the
    environment makes it fail, leaving the keyspace as it was, or the
    command runs on the keyspace. *)
Definition redis_call {A : Type} (cmd : RedisCmd)
    (run : gmap string RedisValue → Outcome A * gmap string RedisValue)
    : M A :=
  fun w =>
    let w' := record_call (RedisCall cmd) w in
    match redis_fault env w cmd with
    | Some e => (Raise e, w')
    | None => let '(o, d) := run (db w) in (o, set_db d w')
    end.

(** [REDIS_CLIENT.get(key)] (with [decode_responses=True]) *)
Definition REDIS_CLIENT_get (key : string) : M (option string) :=
  redis_call (GET key) (fun d =>
    match d !! key with
    | None => (Return None, d)
    | Some (RString v _) => (Return (Some v), d)
    | Some (RHash _) => (Raise WRONGTYPE, d)
    end).

(** [REDIS_CLIENT.setex(key, ttl, value)] *)
Definition REDIS_CLIENT_setex (key : string) (ttl : Z) (value : string)
    : M bool :=
  redis_call (SETEX key ttl value) (fun d =>
    (Return true, <[key := RString value ttl]> d)).

(** [REDIS_CLIENT.exists(key)]: the number of the keys that exist *)
Definition REDIS_CLIENT_exists (key : string) : M Z :=
  redis_call (EXISTS key) (fun d =>
    match d !! key with
    | None => (Return 0, d)
    | Some _ => (Return 1, d)
    end).

(** [REDIS_CLIENT.hincrby(key, field, amount)]: a missing key or field
    counts as 0; the new value is returned *)
Definition REDIS_CLIENT_hincrby (key field : string) (amount : Z) : M Z :=
  redis_call (HINCRBY key field amount) (fun d =>
    match d !! key with
    | None => (Return amount, <[key := RHash {[field := amount]}]> d)
    | Some (RHash h) =>
        let v := default 0 (h !! field) + amount in
        (Return v, <[key := RHash (<[field := v]> h)]> d)
    | Some (RString _ _) => (Raise WRONGTYPE, d)
    end).

(** [REDIS_CLIENT.hset(key, mapping=mapping)]: the number of fields added
    is returned *)
Definition REDIS_CLIENT_hset (key : string) (mapping : gmap string Z)
    : M Z :=
  redis_call (HSET key mapping) (fun d =>
    match d !! key with
    | None => (Return (Z.of_nat (size mapping)), <[key := RHash mapping]> d)
    | Some (RHash h) =>
        (Return (Z.of_nat (size (mapping ∖ h))),
         <[key := RHash (mapping ∪ h)]> d)
    | Some (RString _ _) => (Raise WRONGTYPE, d)
    end).

(** *** The encoder and the search index *)

(** [EMBEDDINGS_MODEL.encode([query_text]).tolist()[0]] *)
Definition EMBEDDINGS_MODEL_encode (query_text : string)
    : M (Embedding env) :=
  fun w => (encode env w query_text, record_call (EncoderCall query_text) w).

(** [REDIS_CLIENT.ft("idx:recipes").search(QUERY, {"query_vector": b}).docs] *)
Definition REDIS_CLIENT_ft_search (query_vector : string) : M (list Doc) :=
  fun w =>
    (ft_search env w query_vector, record_call (SearchCall query_vector) w).

(** *** Helper functions *)

(** [f"search_cache:{query_text}"] *)
Definition cache_key (query_text : string) : string :=
  "search_cache:" +:+ query_text.

(** Truth value of a Python [str]. *)
Definition str_truthy (s : string) : bool :=
  match s with
  | EmptyString => false
  | String _ _ => true
  end.

(** Truth value of an [Optional[List[dict]]]. *)
Definition optlist_truthy {A : Type} (o : option (list A)) : bool :=
  match o with
  | None => false
  | Some [] => false
  | Some (_ :: _) => true
  end.

Definition get_cached_results (query_text : string)
    : M (option (list Item)) :=
  let cache_key := cache_key query_text in
  cached_results ← REDIS_CLIENT_get cache_key;
  match cached_results with
  | Some payload =>
      if str_truthy payload
      then l ← lift (py_eval env payload); mret (Some l)
      else mret None
  | None => mret None
  end.

Definition cache_results (query_text : string) (results : list Item)
    : M unit :=
  let cache_key := cache_key query_text in
  try_except
    (REDIS_CLIENT_setex cache_key CACHE_EXPIRATION (py_str env results);;
     mret tt)
    is_Exception
    (fun e => LOGGER_error;; LOGGER_error;; raise e).

(** The body of the loop [for doc in result_docs] of
    [get_recipes_by_query]: one item appended to [results_list]. *)
Definition append_doc (results_list : list Item) (doc : Doc) : list Item :=
  let title := getattr doc "$.title" "No title available" in
  let link := getattr doc "$.link" "No link available" in
  results_list ++ [ <["link" := link]> (<["title" := title]> ∅) ].

(** The default of the parameter [items_per_page]. *)
Definition items_per_page_default : Z := 3.

(** The part of [get_recipes_by_query] below the cache lookup (the code
    under the comment "If no cache, perform the search"). *)
Definition perform_search
    (query_text : string) (page : Z) (items_per_page : Z) : M (list Item) :=
  encoded_query ← EMBEDDINGS_MODEL_encode query_text;
  results_list ←
    try_except
      (result_docs ←
         REDIS_CLIENT_ft_search (float16_tobytes env encoded_query);
       mret (fold_left append_doc result_docs []))
      is_Exception
      (fun e => LOGGER_error;; LOGGER_error;; raise e);
  (* Cache the results (with error handling) *)
  try_except
    (cache_results query_text results_list)
    is_OutOfMemoryError
    (fun _ => LOGGER_warning);;
  (* Calculate pagination *)
  let start_idx := (page - 1) * items_per_page in
  let end_idx := start_idx + items_per_page in
  mret (py_slice results_list start_idx end_idx).

Definition get_recipes_by_query
    (query_text : string) (page : Z) (items_per_page : Z) : M (list Item) :=
  (* Try to get cached results first *)
  cached_results ← get_cached_results query_text;
  if optlist_truthy cached_results then
    (* Calculate pagination for cached results *)
    let start_idx := (page - 1) * items_per_page in
    let end_idx := start_idx + items_per_page in
    mret (py_slice (default [] cached_results) start_idx end_idx)
  else
    (* If no cache, perform the search *)
    perform_search query_text page items_per_page.

(** [f"clicks:{query}:{link}"] *)
Definition click_key (query link : string) : string :=
  "clicks:" +:+ query +:+ ":" +:+ link.

Definition store_click_data (query link : string) : M unit :=
  let click_key := click_key query link in
  (* Check if this query-link pair already exists *)
  n ← REDIS_CLIENT_exists click_key;
  if negb (n =? 0) then
    (* Increment the counter *)
    REDIS_CLIENT_hincrby click_key "count" 1;; mret tt
  else
    (* Create new record with initial count of 1 *)
    REDIS_CLIENT_hset click_key {[ "count" := 1 ]};; mret tt.

(** *** Models and endpoints *)

Record ClickData : Type := mkClickData { query : string; link : string }.

(** The dict [{"status": ..., "message": ...}] of [/click]. *)
Record ClickResponse : Type :=
  mkClickResponse { status : string; message : string }.

(** The two dicts [/recipes] answers with. *)
Inductive RecipesResponse : Type :=
  | RecipesPage (query : string) (page : Z) (results : list Item)
      (has_more : bool)
  | RecipesError (error : string).

Definition record_click (click_data : ClickData) : M ClickResponse :=
  try_except
    (store_click_data (query click_data) (link click_data);;
     mret (mkClickResponse "success" "Click data recorded"))
    is_Exception
    (fun e =>
       LOGGER_error;; LOGGER_error;;
       mret (mkClickResponse "error" (exc_str e))).


Definition get_recipes (query : string) (page : Z) : M RecipesResponse :=
  if page <? 1 then
    mret (RecipesError "Page number must be greater than 0")
  else
    r ← try_except
          (results ←
             get_recipes_by_query query page items_per_page_default;
           mret (inl results))
          is_Exception
          (fun e =>
             LOGGER_error;; LOGGER_error;;
             mret (inr (RecipesError (exc_str e))));
    match r with
    | inr response => mret response
    | inl results =>
        mret (RecipesPage query page results
                (Z.of_nat (length results) =? 3))
    end.

End Api.

(** ** Test doubles *)

(** The fixtures of [test.py]: a Redis that never fails, an encoder that
    returns a fixed vector and an index that returns three documents. *)
Module Mock.

Definition MOCK_CACHED_RESULTS : list Item :=
  [ <["link" := "http://test1.com"]> (<["title" := "Test Recipe 1"]> ∅);
    <["link" := "http://test2.com"]> (<["title" := "Test Recipe 2"]> ∅);
    <["link" := "http://test3.com"]> (<["title" := "Test Recipe 3"]> ∅) ].

Definition MockRedisDoc (title link : string) : Doc :=
  <["$.link" := link]> (<["$.title" := title]> ∅).

Definition MOCK_REDIS_DOCS : list Doc :=
  [ MockRedisDoc "Test Recipe 1" "http://test1.com";
    MockRedisDoc "Test Recipe 2" "http://test2.com";
    MockRedisDoc "Test Recipe 3" "http://test3.com" ].

(** A toy serialisation, enough to tell the payloads of the fixtures
    apart: the titles of the items, each followed by a semicolon. *)
Definition mock_str (l : list Item) : string :=
  "[" +:+ fold_right (fun it acc => getattr it "title" "" +:+ ";" +:+ acc)
            "]" l.

Definition mock_eval (payload : string) : Outcome (list Item) :=
  if decide (payload = mock_str MOCK_CACHED_RESULTS)
  then Return MOCK_CACHED_RESULTS
  else if decide (payload = "[]") then Return []
  else Raise (mkExn SyntaxError "invalid syntax").

(** The environment of a test: what the encoder and the index answer
    and which Redis commands are refused. *)
Definition env_with
    (encoded_query : Outcome (list Z)) (result_docs : Outcome (list Doc))
    (fault : RedisCmd → option Exn) : Env :=
  {| Embedding := list Z;
     encode := fun _ _ => encoded_query;
     float16_tobytes := fun _ => "float16[0.1, 0.2, 0.3]";
     ft_search := fun _ _ => result_docs;
     redis_fault := fun _ cmd => fault cmd;
     py_str := mock_str;
     py_eval := mock_eval |}.

Definition mock_env : Env :=
  env_with (Return [1; 2; 3]) (Return MOCK_REDIS_DOCS) (fun _ => None).

Definition empty_world : World := mkWorld ∅ [].

(** A world whose cache holds the three fixture items for "test query". *)
Definition cached_world : World :=
  mkWorld
    {[ cache_key "test query" := RString (mock_str MOCK_CACHED_RESULTS) 3 ]}
    [].

(** A world whose cache holds the empty list for "test query". *)
Definition empty_list_cached : World :=
  mkWorld {[ cache_key "test query" := RString "[]" 3 ]} [].

(** A Redis that refuses every SETEX with the exception [e]. *)
Definition setex_refused (e : Exn) : Env :=
  env_with (Return [1; 2; 3]) (Return MOCK_REDIS_DOCS)
    (fun cmd =>
       match cmd with
       | SETEX _ _ _ => Some e
       | _ => None
       end).

(** An outage: the index raises [e] and Redis refuses with [e] the
    commands that work on click records. *)
Definition outage (e : Exn) : Env :=
  env_with (Return [1; 2; 3]) (Raise e)
    (fun cmd =>
       match cmd with
       | EXISTS _ | HINCRBY _ _ _ | HSET _ _ => Some e
       | _ => None
       end).

(** An encoder, resp. an index, that raises [e]. *)
Definition encoder_down (e : Exn) : Env :=
  env_with (Raise e) (Return MOCK_REDIS_DOCS) (fun _ => None).

Definition index_down (e : Exn) : Env :=
  env_with (Return [1; 2; 3]) (Raise e) (fun _ => None).

End Mock.

(** ** Situations the properties speak about *)

(** The cache lookup for [q] goes through and finds no entry. *)
Definition cache_miss (env : Env) (w : World) (q : string) : Prop :=
  redis_fault env w (GET (cache_key q)) = None ∧
  db w !! cache_key q = None.

(** The cache lookup for [q] goes through and finds an entry whose payload
    deserialises to the list [l].  (Python's [eval] never turns the empty
    string into a list, hence the payload is not empty.) *)
Definition cache_hit (env : Env) (w : World) (q : string) (l : list Item)
    : Prop :=
  redis_fault env w (GET (cache_key q)) = None ∧
  ∃ payload ttl,
    db w !! cache_key q = Some (RString payload ttl) ∧
    payload ≠ "" ∧
    py_eval env payload = Return l.

(** Redis refuses no command, whatever the world. *)
Definition reliable_redis (env : Env) : Prop :=
  ∀ w cmd, redis_fault env w cmd = None.

(** The list [get_recipes_by_query] builds from the documents found. *)
Definition results_of (docs : list Doc) : list Item :=
  fold_left append_doc docs [].

(** The item built from one document. *)
Definition item_of (doc : Doc) : Item :=
  <["link" := getattr doc "$.link" "No link available"]>
    (<["title" := getattr doc "$.title" "No title available"]> ∅).

(** How often the encoder, resp. the search index, was called. *)
Definition is_encoder_call (ev : Event) : bool :=
  match ev with
  | EncoderCall _ => true
  | _ => false
  end.

Definition is_search_call (ev : Event) : bool :=
  match ev with
  | SearchCall _ => true
  | _ => false
  end.

Definition encoder_calls (t : list Event) : nat :=
  length (List.filter is_encoder_call t).

Definition search_calls (t : list Event) : nat :=
  length (List.filter is_search_call t).

(** The page the pagination arithmetic of [get_recipes_by_query] cuts out
    of a full list. *)
Definition page_of (l : list Item) (page items_per_page : Z) : list Item :=
  py_slice l ((page - 1) * items_per_page)
             ((page - 1) * items_per_page + items_per_page).

(** The world after the encoder, and then the index, have been called. *)
Definition encoded (q : string) (w : World) : World :=
  record_call (EncoderCall q) w.

Definition searched (env : Env) (q : string) (v : Embedding env) (w : World)
    : World :=
  record_call (SearchCall (float16_tobytes env v)) (encoded q w).

(** The command that writes the results of [docs] to the cache of [q]. *)
Definition cache_write (env : Env) (q : string) (docs : list Doc)
    : RedisCmd :=
  SETEX (cache_key q) CACHE_EXPIRATION (py_str env (results_of docs)).

(** The count of the click record of (query, link), if there is one. *)
Definition click_count (w : World) (query link : string) : option Z :=
  match db w !! click_key query link with
  | Some (RHash h) => h !! "count"
  | _ => None
  end.

(** [n] clicks on the same (query, link), one after the other. *)
Fixpoint clicks (env : Env) (query link : string) (n : nat) : M unit :=
  match n with
  | O => mret tt
  | S n => store_click_data env query link;; clicks env query link n
  end.


(** The commands recording a click on (query, link) may send. *)
Definition click_event (query link : string) (ev : Event) : Prop :=
  match ev with
  | RedisCall (EXISTS key) => key = click_key query link
  | RedisCall (HINCRBY key field amount) =>
      key = click_key query link ∧ field = "count" ∧ amount = 1
  | RedisCall (HSET key mapping) =>
      key = click_key query link ∧ mapping = {[ "count" := 1 ]}
  | _ => False
  end.

(** [str] and [eval] agree on the list [l]: what is written for [l] reads
    back as [l]. *)
Definition roundtrips (env : Env) (l : list Item) : Prop :=
  py_str env l ≠ "" ∧ py_eval env (py_str env l) = Return l.

(** The first [n] pages of [l], of size [s] each. *)
Definition pages (l : list Item) (s : Z) (n : nat) : list (list Item) :=
  map (λ p : nat, page_of l (Z.of_nat p) s) (seq 1 n).

(** ** Start-up: the Redis credentials *)

Module Bootstrap.

(** The values the credentials may hold: [None] (a variable that is not
    set), a string, or a number (a port given as a JSON number). *)
Inductive PyVal : Type :=
  | PyNone
  | PyStr (s : string)
  | PyInt (n : Z).

(** What the start-up code gets from outside. *)
Record BootEnv : Type := mkBootEnv {
  (** [client.get_secret_value(SecretId=name)], the response by key *)
  get_secret_value : string → Outcome (gmap string string);
  (** [json.loads] on a secret that holds a JSON object *)
  json_loads : string → Outcome (gmap string PyVal);
  (** [os.getenv(name)] *)
  getenv : string → option string;
  (** [int(s)] on a string, [None] where it raises [ValueError] *)
  int_of_str : string → option Z
}.

Definition ValueError (msg : string) : Exn :=
  mkExn (OtherException "ValueError") msg.
Definition KeyError (key : string) : Exn :=
  mkExn (OtherException "KeyError") ("'" +:+ key +:+ "'").
Definition TypeError (msg : string) : Exn :=
  mkExn (OtherException "TypeError") msg.

Section Boot.

Context (benv : BootEnv).

Definition get_secret (secret_name : string) : Outcome (gmap string PyVal) :=
  match get_secret_value benv secret_name with
  | Raise e => Raise e
  | Return get_secret_value_response =>
      match get_secret_value_response !! "SecretString" with
      | Some secret => json_loads benv secret
      | None => Raise (ValueError "Secret value is not a string")
      end
  end.

(** [os.getenv(name)] as a value. *)
Definition os_getenv (name : string) : PyVal :=
  match getenv benv name with
  | Some s => PyStr s
  | None => PyNone
  end.

(** The credentials: the secret "redis_data", or the environment when
    [get_secret] raises. *)
Definition REDIS_CREDS : gmap string PyVal :=
  match get_secret "redis_data" with
  | Return creds => creds
  | Raise exc =>
      <["REDIS_PASSWORD" := os_getenv "REDIS_PASSWORD"]>
        (<["REDIS_USERNAME" := os_getenv "REDIS_USERNAME"]>
           (<["REDIS_PORT" := os_getenv "REDIS_PORT"]>
              (<["REDIS_HOST" := os_getenv "REDIS_HOST"]> ∅)))
  end.

(** [d[key]] *)
Definition subscript (d : gmap string PyVal) (key : string) : Outcome PyVal :=
  match d !! key with
  | Some v => Return v
  | None => Raise (KeyError key)
  end.

(** [int(v)]; the messages are those of CPython for [None] and for a
    string without quotes or escapes. *)
Definition py_int (v : PyVal) : Outcome Z :=
  match v with
  | PyInt n => Return n
  | PyStr s =>
      match int_of_str benv s with
      | Some n => Return n
      | None =>
          Raise (ValueError
                   ("invalid literal for int() with base 10: '" +:+ s +:+ "'"))
      end
  | PyNone =>
      Raise (TypeError
               ("int() argument must be a string, a bytes-like object " +:+
                "or a real number, not 'NoneType'"))
  end.

(** The arguments [redis.Redis] is built with. *)
Record RedisArgs : Type := mkRedisArgs {
  host : PyVal;
  port : Z;
  decode_responses : bool;
  username : PyVal;
  password : PyVal
}.

(** The arguments of [REDIS_CLIENT = redis.Redis(...)], evaluated in the
    order they are written. *)
Definition REDIS_CLIENT_args : Outcome RedisArgs :=
  match subscript REDIS_CREDS "REDIS_HOST" with
  | Raise e => Raise e
  | Return h =>
      match subscript REDIS_CREDS "REDIS_PORT" with
      | Raise e => Raise e
      | Return p =>
          match py_int p with
          | Raise e => Raise e
          | Return n =>
              match subscript REDIS_CREDS "REDIS_USERNAME" with
              | Raise e => Raise e
              | Return u =>
                  match subscript REDIS_CREDS "REDIS_PASSWORD" with
                  | Raise e => Raise e
                  | Return pw => Return (mkRedisArgs h n true u pw)
                  end
              end
          end
      end
  end.

End Boot.

(** A start-up environment for tests: Secrets Manager as given, and the
    environment variables of [test.py]. *)
Definition test_benv (secret : Outcome (gmap string string))
    (parsed : Outcome (gmap string PyVal)) : BootEnv :=
  {| get_secret_value := fun _ => secret;
     json_loads := fun _ => parsed;
     getenv := fun name =>
       if decide (name = "REDIS_HOST") then Some "test-host"
       else if decide (name = "REDIS_PORT") then Some "1234"
       else if decide (name = "REDIS_USERNAME") then Some "test-user"
       else if decide (name = "REDIS_PASSWORD") then Some "test-pass"
       else None;
     int_of_str := fun s => if decide (s = "1234") then Some 1234 else None |}.

End Bootstrap.

(** ** Running computations *)

Ltac run_M :=
  unfold mbind, M_bind, bind, mret, M_ret, ret, raise, lift, try_except,
    LOGGER_error, LOGGER_warning; simpl.

(** Checks the events of a concrete list one by one. *)
Ltac events_ok :=
  repeat first
    [ apply List.Forall_nil
    | apply List.Forall_cons; [simpl; unfold CACHE_EXPIRATION; by auto|] ].


Lemma get_cached_results_miss env w q :
  cache_miss env w q →
  get_cached_results env q w
    = (Return None, record_call (RedisCall (GET (cache_key q))) w).
Proof.
  intros [Hf Hk]. unfold get_cached_results, REDIS_CLIENT_get, redis_call.
  run_M. by rewrite Hf, Hk.
Qed.

Lemma get_cached_results_hit env w q l :
  cache_hit env w q l →
  get_cached_results env q w
    = (Return (Some l), record_call (RedisCall (GET (cache_key q))) w).
Proof.
  intros [Hf (payload & ttl & Hk & Hne & Hev)].
  unfold get_cached_results, REDIS_CLIENT_get, redis_call.
  run_M. rewrite Hf, Hk. simpl.
  destruct payload as [|c payload]; [done|]. simpl. by rewrite Hev.
Qed.

(** Whatever it returns, the lookup is one GET and changes no key. *)
Lemma get_cached_results_world env q w o w' :
  get_cached_results env q w = (o, w') →
  w' = record_call (RedisCall (GET (cache_key q))) w.
Proof.
  unfold get_cached_results, REDIS_CLIENT_get, redis_call. run_M.
  destruct (redis_fault env w _); [by intros [= _ <-]|].
  destruct (db w !! cache_key q) as [[payload ttl|h]|]; simpl;
    try by intros [= _ <-].
  destruct payload; simpl; [by intros [= _ <-]|].
  destruct (py_eval env _); by intros [= _ <-].
Qed.

Lemma perform_search_encoder_raises env q page s w e :
  encode env w q = Raise e →
  perform_search env q page s w = (Raise e, encoded q w).
Proof.
  intros He. unfold perform_search, EMBEDDINGS_MODEL_encode. run_M.
  by rewrite He.
Qed.

Lemma perform_search_index_raises env q page s w v e :
  encode env w q = Return v →
  ft_search env (encoded q w) (float16_tobytes env v) = Raise e →
  perform_search env q page s w = (Raise e, searched env q v w).
Proof.
  intros He Hs.
  unfold perform_search, EMBEDDINGS_MODEL_encode, REDIS_CLIENT_ft_search.
  run_M. rewrite He. unfold encoded in Hs. by rewrite Hs.
Qed.

Lemma perform_search_found env q page s w v docs :
  encode env w q = Return v →
  ft_search env (encoded q w) (float16_tobytes env v) = Return docs →
  let w3 := searched env q v w in
  let w4 := record_call (RedisCall (cache_write env q docs)) w3 in
  perform_search env q page s w =
    match redis_fault env w3 (cache_write env q docs) with
    | None =>
        (Return (page_of (results_of docs) page s),
         set_db (<[cache_key q :=
                     RString (py_str env (results_of docs)) CACHE_EXPIRATION]>
                   (db w)) w4)
    | Some e =>
        if is_OutOfMemoryError e
        then (Return (page_of (results_of docs) page s), w4)
        else (Raise e, w4)
    end.
Proof.
  intros He Hs.
  unfold perform_search, EMBEDDINGS_MODEL_encode, REDIS_CLIENT_ft_search,
    cache_results, REDIS_CLIENT_setex, redis_call.
  run_M. rewrite He. unfold encoded in Hs. rewrite Hs.
  unfold searched, encoded, cache_write, results_of. simpl.
  destruct (redis_fault env _ _) as [e|]; [|done].
  by destruct (is_OutOfMemoryError e).
Qed.

(** The lookup decides between the two halves of [get_recipes_by_query]. *)
Lemma get_recipes_by_query_unfold env q page s w :
  get_recipes_by_query env q page s w =
    match get_cached_results env q w with
    | (Return c, w1) =>
        if optlist_truthy c
        then (Return (page_of (default [] c) page s), w1)
        else perform_search env q page s w1
    | (Raise e, w1) => (Raise e, w1)
    end.
Proof.
  unfold get_recipes_by_query. run_M.
  destruct (get_cached_results env q w) as [[c|e] w1]; [|done].
  by destruct (optlist_truthy c).
Qed.

(** For a valid page, [get_recipes] wraps whatever
    [get_recipes_by_query] does. *)
Lemma get_recipes_unfold env q page w :
  1 ≤ page →
  get_recipes env q page w =
    match get_recipes_by_query env q page items_per_page_default w with
    | (Return results, w') =>
        (Return (RecipesPage q page results
                   (Z.of_nat (length results) =? 3)), w')
    | (Raise e, w') => (Return (RecipesError (exc_str e)), w')
    end.
Proof.
  intros Hp. unfold get_recipes.
  destruct (Z.ltb_spec page 1) as [?|_]; [lia|]. run_M.
  by destruct (get_recipes_by_query env q page items_per_page_default w)
    as [[r|e] w'].
Qed.

(** ** Pagination *)

Section Pagination.

Context {A : Type}.
Implicit Types l : list A.

(** With bounds that are not negative, a slice is a [take] of a [drop]. *)
Lemma py_slice_nonneg l start stop :
  0 ≤ start → start ≤ stop →
  py_slice l start stop
    = take (Z.to_nat (stop - start)) (drop (Z.to_nat start) l).
Proof.
  intros H0 Hle. unfold py_slice, slice_bound.
  destruct (Z.ltb_spec start 0) as [?|_]; [lia|].
  destruct (Z.ltb_spec stop 0) as [?|_]; [lia|].
  destruct (Z_le_gt_dec (Z.of_nat (length l)) start) as [Hout|Hin].
  - (* the slice starts beyond the end *)
    rewrite !(drop_ge l) by lia. by rewrite !take_nil.
  - rewrite (Z.min_l start) by lia.
    destruct (Z_le_gt_dec stop (Z.of_nat (length l))) as [Hs|Hs].
    + by rewrite (Z.min_l stop) by lia.
    + rewrite (Z.min_r stop) by lia.
      rewrite !take_ge; [done| |]; rewrite length_drop; lia.
Qed.

Lemma py_slice_sublist l start stop : py_slice l start stop `sublist_of` l.
Proof.
  unfold py_slice. etrans; [apply sublist_take | apply sublist_drop].
Qed.

Lemma py_slice_elem_of l start stop x : x ∈ py_slice l start stop → x ∈ l.
Proof. intros Hx. eapply elem_of_sublist, py_slice_sublist. exact Hx. Qed.

End Pagination.

(** Page [page >= 1] of size [s >= 0] is made of the items at the indices
    [(page-1)*s .. page*s - 1]. *)
Lemma page_of_take_drop (l : list Item) page s :
  1 ≤ page → 0 ≤ s →
  page_of l page s
    = take (Z.to_nat s) (drop (Z.to_nat ((page - 1) * s)) l).
Proof.
  intros Hp Hs. unfold page_of. rewrite py_slice_nonneg by nia.
  do 2 f_equal. lia.
Qed.

Lemma page_of_lookup (l : list Item) page s (i : nat) :
  1 ≤ page → 0 ≤ s →
  page_of l page s !! i
    = if decide (Z.of_nat i < s)
      then l !! (Z.to_nat ((page - 1) * s) + i)%nat
      else None.
Proof.
  intros Hp Hs. rewrite page_of_take_drop by done.
  case_decide.
  - rewrite lookup_take_lt by lia. apply lookup_drop.
  - apply lookup_take_ge. lia.
Qed.

Lemma page_of_out_of_range (l : list Item) page s :
  1 ≤ page → 0 ≤ s → Z.of_nat (length l) ≤ (page - 1) * s →
  page_of l page s = [].
Proof.
  intros Hp Hs Hout. rewrite page_of_take_drop by done.
  rewrite drop_ge by lia. apply take_nil.
Qed.

Lemma page_of_length (l : list Item) page s :
  1 ≤ page → 0 ≤ s →
  length (page_of l page s)
    = Nat.min (Z.to_nat s) (length l - Z.to_nat ((page - 1) * s)).
Proof.
  intros Hp Hs. rewrite page_of_take_drop by done.
  by rewrite length_take, length_drop.
Qed.

(** ** Which collaborators a search calls *)

Lemma encoder_calls_app t1 t2 :
  encoder_calls (t1 ++ t2) = (encoder_calls t1 + encoder_calls t2)%nat.
Proof. unfold encoder_calls. by rewrite List.filter_app, length_app. Qed.

Lemma search_calls_app t1 t2 :
  search_calls (t1 ++ t2) = (search_calls t1 + search_calls t2)%nat.
Proof. unfold search_calls. by rewrite List.filter_app, length_app. Qed.

(** The search half always starts with the encoder, and goes on with the
    index as soon as the encoder has returned. *)
Lemma perform_search_trace env q page s w :
  ∃ rest,
    trace (snd (perform_search env q page s w))
      = trace w ++ EncoderCall q :: rest ∧
    ∀ v, encode env w q = Return v →
      ∃ rest', rest = SearchCall (float16_tobytes env v) :: rest'.
Proof.
  destruct (encode env w q) as [v|e] eqn:He.
  - destruct (ft_search env (encoded q w) (float16_tobytes env v))
      as [docs|e] eqn:Hs.
    + exists [SearchCall (float16_tobytes env v);
              RedisCall (cache_write env q docs)].
      split; [|intros v' [= <-]; eauto].
      rewrite (perform_search_found _ _ _ _ _ _ _ He Hs).
      destruct (redis_fault env _ _) as [e|];
        [destruct (is_OutOfMemoryError e)|]; simpl;
        by rewrite <- !app_assoc.
    + exists [SearchCall (float16_tobytes env v)].
      split; [|intros v' [= <-]; eauto].
      rewrite (perform_search_index_raises _ _ _ _ _ _ _ He Hs). simpl.
      by rewrite <- app_assoc.
  - exists []. split; [|done].
    by rewrite (perform_search_encoder_raises _ _ _ _ _ _ He).
Qed.

(** ** Cache hits *)

(** C3, as amended: for every query whose cache entry holds a list that is
    not empty, requesting page [p] with page size [s] returns exactly the
    slice [(p-1)*s : p*s] of the cached list, in the cached order; the only
    call made is the cache lookup, so neither the encoder nor the search
    index is called, and no key changes.  For [p >= 1] and [s >= 0] the
    slice is made of the items at the indices [(p-1)*s] up to (excluding)
    [p*s], and a slice out of range is the empty page, not an error. *)
Theorem cache_hit_serves_slice env w q (l : list Item) page s :
  cache_hit env w q l → l ≠ [] →
  let out := get_recipes_by_query env q page s w in
  out = (Return (py_slice l ((page - 1) * s) (page * s)),
         record_call (RedisCall (GET (cache_key q))) w)
  ∧ trace (snd out) = trace w ++ [RedisCall (GET (cache_key q))]
  ∧ encoder_calls (trace (snd out)) = encoder_calls (trace w)
  ∧ search_calls (trace (snd out)) = search_calls (trace w)
  ∧ db (snd out) = db w
  ∧ (1 ≤ page → 0 ≤ s →
     (∀ i : nat,
        py_slice l ((page - 1) * s) (page * s) !! i
          = if decide (Z.of_nat i < s)
            then l !! (Z.to_nat ((page - 1) * s) + i)%nat
            else None)
     ∧ (Z.of_nat (length l) ≤ (page - 1) * s → fst out = Return [])).
Proof.
  intros Hhit Hne out.
  assert (Hout : out = (Return (py_slice l ((page - 1) * s) (page * s)),
                        record_call (RedisCall (GET (cache_key q))) w)).
  { unfold out. rewrite get_recipes_by_query_unfold.
    rewrite (get_cached_results_hit _ _ _ _ Hhit).
    destruct l as [|x l]; [done|]. simpl. unfold page_of.
    do 3 f_equal. lia. }
  rewrite Hout. simpl.
  rewrite encoder_calls_app, search_calls_app.
  repeat split; try done; try (unfold encoder_calls, search_calls; simpl; lia).
  - intros i. replace (page * s) with ((page - 1) * s + s) by lia.
    by apply page_of_lookup.
  - intros Hrange. replace (page * s) with ((page - 1) * s + s) by lia.
    f_equal. by apply page_of_out_of_range.
Qed.

Lemma cache_hit_serves_slice_witness :
  cache_hit Mock.mock_env Mock.cached_world "test query"
    Mock.MOCK_CACHED_RESULTS
  ∧ Mock.MOCK_CACHED_RESULTS ≠ []
  ∧ fst (get_recipes_by_query Mock.mock_env "test query" 1 2
           Mock.cached_world)
    = Return (take 2 Mock.MOCK_CACHED_RESULTS).
Proof.
  assert (Hhit : cache_hit Mock.mock_env Mock.cached_world "test query"
                   Mock.MOCK_CACHED_RESULTS).
  { split; [reflexivity|].
    exists (Mock.mock_str Mock.MOCK_CACHED_RESULTS), 3.
    split; [vm_compute; reflexivity|].
    split; [discriminate | vm_compute; reflexivity]. }
  assert (Hne : Mock.MOCK_CACHED_RESULTS ≠ []) by discriminate.
  split; [exact Hhit|]. split; [exact Hne|].
  destruct (cache_hit_serves_slice Mock.mock_env Mock.cached_world
              "test query" Mock.MOCK_CACHED_RESULTS 1 2 Hhit Hne)
    as [Hout _].
  rewrite Hout. vm_compute. reflexivity.
Defined.

(** C3 as stated fails for a cached list of no items: the entry is there
    and deserialises to the empty list, and yet the encoder and the index
    are called and the page comes from the index, not from the cache. *)
Lemma empty_cached_list_is_recomputed :
  let out := get_recipes_by_query Mock.mock_env "test query" 1 3
               Mock.empty_list_cached in
  cache_hit Mock.mock_env Mock.empty_list_cached "test query" []
  ∧ fst out = Return (results_of Mock.MOCK_REDIS_DOCS)
  ∧ fst out ≠ Return (py_slice [] ((1 - 1) * 3) (1 * 3))
  ∧ encoder_calls (trace (snd out)) = 1%nat
  ∧ search_calls (trace (snd out)) = 1%nat.
Proof.
  split.
  { split; [reflexivity|]. exists "[]", 3.
    split; [vm_compute; reflexivity|].
    split; [discriminate | vm_compute; reflexivity]. }
  vm_compute. repeat split; discriminate.
Qed.

(** C9: when the cached payload of a query deserialises to the empty list,
    [get_recipes_by_query] does not serve the result from the cache.  The
    hit test is the truth value of the deserialised list, so the run goes
    on from the world after the lookup with the search half of the
    function, exactly as it does when there is no entry at all: the encoder
    is called again, and so is the search index once the encoder has
    returned. *)
Theorem empty_cached_list_is_a_miss env w q page s :
  cache_hit env w q [] →
  let w1 := record_call (RedisCall (GET (cache_key q))) w in
  let out := get_recipes_by_query env q page s w in
  optlist_truthy (Some ([] : list Item)) = optlist_truthy (@None (list Item))
  ∧ out = perform_search env q page s w1
  ∧ (∀ w0, cache_miss env w0 q →
       get_recipes_by_query env q page s w0
         = perform_search env q page s
             (record_call (RedisCall (GET (cache_key q))) w0))
  ∧ (∃ rest,
       trace (snd out)
         = trace w ++ RedisCall (GET (cache_key q)) :: EncoderCall q :: rest)
  ∧ (∀ v, encode env w1 q = Return v →
       ∃ rest,
         trace (snd out)
           = trace w ++ RedisCall (GET (cache_key q)) :: EncoderCall q
               :: SearchCall (float16_tobytes env v) :: rest).
Proof.
  intros Hhit w1 out.
  assert (Hout : out = perform_search env q page s w1).
  { unfold out. rewrite get_recipes_by_query_unfold.
    by rewrite (get_cached_results_hit _ _ _ _ Hhit). }
  split; [done|]. split; [done|]. split.
  { intros w0 Hmiss. rewrite get_recipes_by_query_unfold.
    by rewrite (get_cached_results_miss _ _ _ Hmiss). }
  rewrite Hout.
  destruct (perform_search_trace env q page s w1) as (rest & Ht & Hv).
  split.
  - exists rest. rewrite Ht. simpl. by rewrite <- app_assoc.
  - intros v He. destruct (Hv v He) as [rest' ->].
    exists rest'. rewrite Ht. simpl. by rewrite <- app_assoc.
Qed.

Lemma empty_cached_list_is_a_miss_witness :
  cache_hit Mock.mock_env Mock.empty_list_cached "test query" []
  ∧ ∃ rest,
      trace (snd (get_recipes_by_query Mock.mock_env "test query" 1 3
                    Mock.empty_list_cached))
        = RedisCall (GET (cache_key "test query"))
            :: EncoderCall "test query" :: rest.
Proof.
  assert (Hhit : cache_hit Mock.mock_env Mock.empty_list_cached
                   "test query" []).
  { split; [reflexivity|]. exists "[]", 3.
    split; [vm_compute; reflexivity|].
    split; [discriminate | vm_compute; reflexivity]. }
  split; [exact Hhit|].
  exact (proj1 (proj2 (proj2 (proj2
           (empty_cached_list_is_a_miss Mock.mock_env Mock.empty_list_cached
              "test query" 1 3 Hhit))))).
Defined.

(** ** Cache misses *)

(** C1 as stated fails: with a working encoder and index, a cache write
    that Redis refuses with a [ConnectionError] makes the search raise.
    The last call of the run is the refused SETEX. *)
Lemma cache_write_ConnectionError_is_fatal :
  let e := mkExn ConnectionError "Connection refused" in
  let out := get_recipes_by_query (Mock.setex_refused e) "test query" 1 3
               Mock.empty_world in
  fst out = Raise e
  ∧ trace (snd out)
      = [ RedisCall (GET "search_cache:test query");
          EncoderCall "test query";
          SearchCall "float16[0.1, 0.2, 0.3]";
          RedisCall (SETEX "search_cache:test query" 3
                       (Mock.mock_str (results_of Mock.MOCK_REDIS_DOCS))) ].
Proof. vm_compute. split; reflexivity. Qed.

(** C1, as amended: on the miss path, when the write of the freshly
    computed result set to the cache fails with the out-of-memory error of
    Redis, [get_recipes_by_query] still returns the page of that result
    set, and the cache is left as it was; a write that fails with an
    exception of any other class is raised again by [cache_results] and
    leaves [get_recipes_by_query] as that exception. *)
Theorem cache_write_failure env w q page s c w1 v docs e :
  get_cached_results env q w = (Return c, w1) →
  optlist_truthy c = false →
  encode env w1 q = Return v →
  ft_search env (encoded q w1) (float16_tobytes env v) = Return docs →
  redis_fault env (searched env q v w1) (cache_write env q docs) = Some e →
  let out := get_recipes_by_query env q page s w in
  (is_OutOfMemoryError e = true →
     fst out = Return (page_of (results_of docs) page s))
  ∧ (is_OutOfMemoryError e = false → fst out = Raise e)
  ∧ db (snd out) = db w
  ∧ trace (snd out)
      = trace w ++ [ RedisCall (GET (cache_key q)); EncoderCall q;
                     SearchCall (float16_tobytes env v);
                     RedisCall (cache_write env q docs) ].
Proof.
  intros Hget Hc He Hs Hf out. unfold out.
  rewrite get_recipes_by_query_unfold, Hget, Hc.
  rewrite (perform_search_found _ _ _ _ _ _ _ He Hs). simpl. rewrite Hf.
  apply get_cached_results_world in Hget as ->.
  destruct (is_OutOfMemoryError e); simpl;
    (repeat split; [done..|by rewrite <- !app_assoc]).
Qed.

Lemma cache_write_failure_witness :
  let e := mkExn OutOfMemoryError "OOM command not allowed" in
  let env := Mock.setex_refused e in
  let w1 := record_call (RedisCall (GET (cache_key "test query")))
              Mock.empty_world in
  get_cached_results env "test query" Mock.empty_world = (Return None, w1)
  ∧ optlist_truthy (@None (list Item)) = false
  ∧ encode env w1 "test query" = Return [1; 2; 3]
  ∧ ft_search env (encoded "test query" w1)
      (float16_tobytes env ([1; 2; 3] : Embedding env))
    = Return Mock.MOCK_REDIS_DOCS
  ∧ redis_fault env (searched env "test query" [1; 2; 3] w1)
      (cache_write env "test query" Mock.MOCK_REDIS_DOCS) = Some e
  ∧ fst (get_recipes_by_query env "test query" 1 2 Mock.empty_world)
    = Return (take 2 Mock.MOCK_CACHED_RESULTS).
Proof.
  intros e env w1.
  repeat (split; [reflexivity|]).
  destruct (cache_write_failure env Mock.empty_world "test query" 1 2
              None w1 ([1; 2; 3] : Embedding env) Mock.MOCK_REDIS_DOCS e
              eq_refl eq_refl eq_refl eq_refl eq_refl) as [Hoom _].
  rewrite (Hoom eq_refl). vm_compute. reflexivity.
Defined.

(** The loop of [get_recipes_by_query] builds one item per document, in
    the order of the documents. *)
Lemma results_of_map docs : results_of docs = map item_of docs.
Proof.
  unfold results_of. change (map item_of docs) with ([] ++ map item_of docs).
  generalize (@nil Item) as acc.
  induction docs as [|doc docs IH]; intros acc; simpl.
  - by rewrite app_nil_r.
  - rewrite IH. unfold append_doc. by rewrite <- app_assoc.
Qed.

(** C4: for every query with no cache entry, [get_recipes_by_query] calls
    the encoder exactly once and the search index exactly once (the run is
    the lookup, the encoder, the index and the cache write, in this order),
    and what it writes to the cache, with the time to live 3, is the full
    result set, one item per document found; the page returned is cut out
    of that full set. *)
Theorem cache_miss_runs_pipeline_once env w q page s v docs :
  cache_miss env w q →
  let w1 := record_call (RedisCall (GET (cache_key q))) w in
  encode env w1 q = Return v →
  ft_search env (encoded q w1) (float16_tobytes env v) = Return docs →
  let out := get_recipes_by_query env q page s w in
  let full := results_of docs in
  trace (snd out)
    = trace w ++ [ RedisCall (GET (cache_key q)); EncoderCall q;
                   SearchCall (float16_tobytes env v);
                   RedisCall (SETEX (cache_key q) 3 (py_str env full)) ]
  ∧ encoder_calls (trace (snd out)) = S (encoder_calls (trace w))
  ∧ search_calls (trace (snd out)) = S (search_calls (trace w))
  ∧ length full = length docs
  ∧ (redis_fault env (searched env q v w1)
       (SETEX (cache_key q) 3 (py_str env full)) = None →
     db (snd out) = <[cache_key q := RString (py_str env full) 3]> (db w)
     ∧ fst out = Return (page_of full page s)).
Proof.
  intros Hmiss w1 He Hs out full.
  assert (Ht : trace (snd out)
    = trace w ++ [ RedisCall (GET (cache_key q)); EncoderCall q;
                   SearchCall (float16_tobytes env v);
                   RedisCall (SETEX (cache_key q) 3 (py_str env full)) ]
    ∧ (redis_fault env (searched env q v w1)
         (SETEX (cache_key q) 3 (py_str env full)) = None →
       db (snd out) = <[cache_key q := RString (py_str env full) 3]> (db w)
       ∧ fst out = Return (page_of full page s))).
  { unfold out. rewrite get_recipes_by_query_unfold.
    rewrite (get_cached_results_miss _ _ _ Hmiss). simpl.
    rewrite (perform_search_found _ _ _ _ _ _ _ He Hs).
    fold w1. unfold cache_write, CACHE_EXPIRATION. fold full.
    destruct (redis_fault env _ _) as [e|];
      [destruct (is_OutOfMemoryError e)|]; simpl;
      (split; [by rewrite <- !app_assoc | done]). }
  destruct Ht as [Ht Hw]. rewrite Ht.
  rewrite encoder_calls_app, search_calls_app.
  repeat split; try done.
  - unfold encoder_calls. simpl. lia.
  - unfold search_calls. simpl. lia.
  - unfold full. by rewrite results_of_map, length_map.
  - by apply Hw.
  - by apply Hw.
Qed.

Lemma cache_miss_runs_pipeline_once_witness :
  let env := Mock.mock_env in
  let w1 := record_call (RedisCall (GET (cache_key "test query")))
              Mock.empty_world in
  cache_miss env Mock.empty_world "test query"
  ∧ encode env w1 "test query" = Return [1; 2; 3]
  ∧ ft_search env (encoded "test query" w1)
      (float16_tobytes env ([1; 2; 3] : Embedding env))
    = Return Mock.MOCK_REDIS_DOCS
  ∧ encoder_calls
      (trace (snd (get_recipes_by_query env "test query" 1 2
                     Mock.empty_world))) = 1%nat
  ∧ search_calls
      (trace (snd (get_recipes_by_query env "test query" 1 2
                     Mock.empty_world))) = 1%nat.
Proof.
  intros env w1.
  assert (Hmiss : cache_miss env Mock.empty_world "test query").
  { split; reflexivity. }
  split; [exact Hmiss|]. do 2 (split; [reflexivity|]).
  destruct (cache_miss_runs_pipeline_once env Mock.empty_world "test query"
              1 2 ([1; 2; 3] : Embedding env) Mock.MOCK_REDIS_DOCS
              Hmiss eq_refl eq_refl) as (_ & Henc & Hsearch & _).
  split; [exact Henc | exact Hsearch].
Defined.

(** ** Failures *)

(** C8: on the miss path, an exception raised by the encoder or by the
    search index is not swallowed: [get_recipes_by_query] raises it, and
    the endpoint [/recipes] answers with the dict [{error: str(e)}] and no
    results; in the same way an exception raised while the click is stored
    is caught by the endpoint [/click], which answers
    [{status: "error", message: str(e)}]. *)
Theorem failures_become_error_responses env w q page c w1 :
  get_cached_results env q w = (Return c, w1) →
  optlist_truthy c = false →
  1 ≤ page →
  (∀ e, encode env w1 q = Raise e →
     (∀ s, get_recipes_by_query env q page s w = (Raise e, encoded q w1))
     ∧ get_recipes env q page w
         = (Return (RecipesError (exc_str e)), encoded q w1))
  ∧ (∀ v e,
       encode env w1 q = Return v →
       ft_search env (encoded q w1) (float16_tobytes env v) = Raise e →
       (∀ s, get_recipes_by_query env q page s w
               = (Raise e, searched env q v w1))
       ∧ get_recipes env q page w
           = (Return (RecipesError (exc_str e)), searched env q v w1))
  ∧ (∀ click_data wc e wc',
       store_click_data env (query click_data) (link click_data) wc
         = (Raise e, wc') →
       record_click env click_data wc
         = (Return (mkClickResponse "error" (exc_str e)), wc')).
Proof.
  intros Hget Hc Hp. split; [|split].
  - intros e He.
    assert (Hq : ∀ s, get_recipes_by_query env q page s w
                        = (Raise e, encoded q w1)).
    { intros s. rewrite get_recipes_by_query_unfold, Hget, Hc.
      by apply perform_search_encoder_raises. }
    split; [done|]. by rewrite get_recipes_unfold, Hq.
  - intros v e He Hs.
    assert (Hq : ∀ s, get_recipes_by_query env q page s w
                        = (Raise e, searched env q v w1)).
    { intros s. rewrite get_recipes_by_query_unfold, Hget, Hc.
      by apply perform_search_index_raises. }
    split; [done|]. by rewrite get_recipes_unfold, Hq.
  - intros cd wc e wc' Hstore. unfold record_click. run_M.
    by rewrite Hstore.
Qed.

Lemma failures_become_error_responses_witness :
  let e := mkExn TimeoutError "Timeout reading from socket" in
  let env := Mock.outage e in
  let w1 := record_call (RedisCall (GET (cache_key "test query")))
              Mock.empty_world in
  get_cached_results env "test query" Mock.empty_world = (Return None, w1)
  ∧ optlist_truthy (@None (list Item)) = false
  ∧ 1 ≤ 1
  ∧ fst (get_recipes env "test query" 1 Mock.empty_world)
    = Return (RecipesError "Timeout reading from socket")
  ∧ fst (record_click env (mkClickData "test query" "http://test.com")
           Mock.empty_world)
    = Return (mkClickResponse "error" "Timeout reading from socket").
Proof.
  intros e env w1.
  do 2 (split; [reflexivity|]). split; [lia|].
  destruct (failures_become_error_responses env Mock.empty_world
              "test query" 1 None w1 eq_refl eq_refl ltac:(lia))
    as (_ & Hindex & Hclick).
  split.
  - destruct (Hindex ([1; 2; 3] : Embedding env) e eq_refl eq_refl)
      as [_ ->].
    reflexivity.
  - rewrite (Hclick (mkClickData "test query" "http://test.com")
               Mock.empty_world e
               (record_call
                  (RedisCall (EXISTS (click_key "test query"
                                        "http://test.com")))
                  Mock.empty_world) eq_refl).
    reflexivity.
Defined.

(** ** The endpoint [/recipes] *)

(** A result set of exactly three items, cut with page size 3. *)
Lemma page_of_three (l : list Item) :
  length l = 3%nat → page_of l 1 3 = l ∧ page_of l 2 3 = [].
Proof.
  intros Hl. split.
  - rewrite page_of_take_drop by lia. simpl. apply take_ge. lia.
  - apply page_of_out_of_range; lia.
Qed.

(** What the search half returns once the index has answered and the cache
    write has not failed with anything but the out-of-memory error. *)
Lemma perform_search_returns env q page s w v docs :
  encode env w q = Return v →
  ft_search env (encoded q w) (float16_tobytes env v) = Return docs →
  (∀ e, redis_fault env (searched env q v w) (cache_write env q docs)
          = Some e → is_OutOfMemoryError e = true) →
  fst (perform_search env q page s w)
    = Return (page_of (results_of docs) page s).
Proof.
  intros He Hs Hw. rewrite (perform_search_found _ _ _ _ _ _ _ He Hs).
  destruct (redis_fault env _ _) as [e|] eqn:Hf; [|done].
  by rewrite (Hw e eq_refl).
Qed.

(** C2: for every query and every page [>= 1], a response of [/recipes]
    that carries results carries the page [get_recipes_by_query] returned
    for the page size 3, and reports [has_more = true] if and only if that
    page is exactly full, i.e. has as many items as the page size; such a
    response is given whenever [get_recipes_by_query] returns.  For a
    result set of exactly 3 items, be it served from the cache or freshly
    found by the index, page 1 carries all 3 items with [has_more = true]
    and page 2 carries the empty list with [has_more = false]. *)
Theorem has_more_iff_page_full env w q page :
  1 ≤ page →
  let out := get_recipes env q page w in
  (∀ rq rp results has_more,
     fst out = Return (RecipesPage rq rp results has_more) →
     rq = q ∧ rp = page
     ∧ get_recipes_by_query env q page items_per_page_default w
         = (Return results, snd out)
     ∧ (has_more = true
        ↔ length results = Z.to_nat items_per_page_default))
  ∧ (∀ results w',
       get_recipes_by_query env q page items_per_page_default w
         = (Return results, w') →
       ∃ has_more, out = (Return (RecipesPage q page results has_more), w'))
  ∧ (∀ l : list Item,
       length l = 3%nat → cache_hit env w q l →
       fst (get_recipes env q 1 w) = Return (RecipesPage q 1 l true)
       ∧ fst (get_recipes env q 2 w) = Return (RecipesPage q 2 [] false))
  ∧ (∀ v docs,
       length docs = 3%nat → cache_miss env w q →
       let w1 := record_call (RedisCall (GET (cache_key q))) w in
       encode env w1 q = Return v →
       ft_search env (encoded q w1) (float16_tobytes env v) = Return docs →
       (∀ e, redis_fault env (searched env q v w1) (cache_write env q docs)
               = Some e → is_OutOfMemoryError e = true) →
       fst (get_recipes env q 1 w)
         = Return (RecipesPage q 1 (results_of docs) true)
       ∧ fst (get_recipes env q 2 w) = Return (RecipesPage q 2 [] false)).
Proof.
  intros Hp out. unfold out. rewrite (get_recipes_unfold _ _ _ _ Hp).
  split; [|split; [|split]].
  - intros rq rp results has_more.
    destruct (get_recipes_by_query env q page items_per_page_default w)
      as [[r|e] w'] eqn:Hq; simpl; [|done].
    intros [= <- <- <- <-]. repeat split; try done.
    + intros ?%Z.eqb_eq. unfold items_per_page_default. lia.
    + unfold items_per_page_default. intros ?. apply Z.eqb_eq. lia.
  - intros results w' ->. eauto.
  - intros l Hl Hhit.
    assert (Hq : ∀ p, fst (get_recipes_by_query env q p
                             items_per_page_default w)
                      = Return (page_of l p 3)).
    { intros p. rewrite get_recipes_by_query_unfold.
      rewrite (get_cached_results_hit _ _ _ _ Hhit).
      by destruct l. }
    destruct (page_of_three l Hl) as [H1 H2].
    rewrite !get_recipes_unfold by lia.
    pose proof (Hq 1) as Hq1. pose proof (Hq 2) as Hq2.
    destruct (get_recipes_by_query env q 1 _ w) as [[r1|e1] w1'];
      simpl in Hq1; [|done].
    destruct (get_recipes_by_query env q 2 _ w) as [[r2|e2] w2'];
      simpl in Hq2; [|done].
    injection Hq1 as ->. injection Hq2 as ->.
    rewrite H1, H2. simpl. by rewrite Hl.
  - intros v docs Hl Hmiss. cbv zeta. intros He Hs Hw.
    assert (Hq : ∀ p, fst (get_recipes_by_query env q p
                             items_per_page_default w)
                      = Return (page_of (results_of docs) p 3)).
    { intros p. rewrite get_recipes_by_query_unfold.
      rewrite (get_cached_results_miss _ _ _ Hmiss). simpl.
      by apply (perform_search_returns _ _ _ _ _ v docs). }
    assert (Hl' : length (results_of docs) = 3%nat).
    { by rewrite results_of_map, length_map. }
    destruct (page_of_three _ Hl') as [H1 H2].
    rewrite !get_recipes_unfold by lia.
    pose proof (Hq 1) as Hq1. pose proof (Hq 2) as Hq2.
    destruct (get_recipes_by_query env q 1 _ w) as [[r1|e1] w1'];
      simpl in Hq1; [|done].
    destruct (get_recipes_by_query env q 2 _ w) as [[r2|e2] w2'];
      simpl in Hq2; [|done].
    injection Hq1 as ->. injection Hq2 as ->.
    rewrite H1, H2. simpl. by rewrite Hl'.
Qed.

Lemma has_more_iff_page_full_witness :
  1 ≤ 1
  ∧ cache_hit Mock.mock_env Mock.cached_world "test query"
      Mock.MOCK_CACHED_RESULTS
  ∧ fst (get_recipes Mock.mock_env "test query" 1 Mock.cached_world)
    = Return (RecipesPage "test query" 1 Mock.MOCK_CACHED_RESULTS true)
  ∧ fst (get_recipes Mock.mock_env "test query" 2 Mock.cached_world)
    = Return (RecipesPage "test query" 2 [] false).
Proof.
  split; [lia|].
  assert (Hhit : cache_hit Mock.mock_env Mock.cached_world "test query"
                   Mock.MOCK_CACHED_RESULTS).
  { split; [reflexivity|].
    exists (Mock.mock_str Mock.MOCK_CACHED_RESULTS), 3.
    split; [vm_compute; reflexivity|].
    split; [discriminate | vm_compute; reflexivity]. }
  split; [exact Hhit|].
  destruct (has_more_iff_page_full Mock.mock_env Mock.cached_world
              "test query" 1 ltac:(lia)) as (_ & _ & Hthree & _).
  exact (Hthree Mock.MOCK_CACHED_RESULTS eq_refl Hhit).
Defined.

(** ** Click records *)

Lemma store_click_data_new env q l w :
  reliable_redis env →
  db w !! click_key q l = None →
  store_click_data env q l w
    = (Return tt,
       mkWorld (<[click_key q l := RHash {[ "count" := 1 ]}]> (db w))
         (trace w ++ [ RedisCall (EXISTS (click_key q l));
                       RedisCall (HSET (click_key q l)
                                    {[ "count" := 1 ]}) ])).
Proof.
  intros Hr Hk.
  unfold store_click_data, REDIS_CLIENT_exists, REDIS_CLIENT_hset,
    redis_call.
  run_M. rewrite !Hr, Hk. simpl. rewrite Hr, Hk. simpl.
  unfold set_db. simpl. by rewrite <- app_assoc.
Qed.

Lemma store_click_data_existing env q l w h :
  reliable_redis env →
  db w !! click_key q l = Some (RHash h) →
  store_click_data env q l w
    = (Return tt,
       mkWorld
         (<[click_key q l :=
              RHash (<["count" := default 0 (h !! "count") + 1]> h)]> (db w))
         (trace w ++ [ RedisCall (EXISTS (click_key q l));
                       RedisCall (HINCRBY (click_key q l) "count" 1) ])).
Proof.
  intros Hr Hk.
  unfold store_click_data, REDIS_CLIENT_exists, REDIS_CLIENT_hincrby,
    redis_call.
  run_M. rewrite !Hr, Hk. simpl. rewrite Hr, Hk. simpl.
  unfold set_db. simpl. by rewrite <- app_assoc.
Qed.

(** Every further click adds one to the count of an existing record. *)
Lemma clicks_count env q l n : ∀ w c,
  reliable_redis env →
  click_count w q l = Some c →
  fst (clicks env q l n w) = Return tt
  ∧ click_count (snd (clicks env q l n w)) q l = Some (c + Z.of_nat n).
Proof.
  induction n as [|n IH]; intros w c Hr Hc.
  - simpl. run_M. split; [done|]. rewrite Hc. f_equal. lia.
  - unfold click_count in Hc.
    destruct (db w !! click_key q l) as [[?|h]|] eqn:Hk; try done.
    simpl. run_M. rewrite (store_click_data_existing _ _ _ _ _ Hr Hk).
    destruct (IH (mkWorld
        (<[click_key q l :=
             RHash (<["count" := default 0 (h !! "count") + 1]> h)]> (db w))
        (trace w ++ [ RedisCall (EXISTS (click_key q l));
                      RedisCall (HINCRBY (click_key q l) "count" 1) ]))
        (c + 1) Hr) as [IH1 IH2].
    { unfold click_count. simpl. rewrite lookup_insert_eq.
      rewrite lookup_insert_eq. by rewrite Hc. }
    split; [done|]. rewrite IH2. f_equal. lia.
Qed.

(** C5: the key of the click record of (query, link) is exactly
    ["clicks:" + query + ":" + link], and it is the key of the commands
    sent to Redis.  With a Redis that refuses no command, recording a click
    when no record exists creates the record with count 1; recording a
    click when the record exists adds exactly 1 to its count and leaves its
    other fields alone; so a first click followed by three more gives the
    count 4. *)
Theorem click_is_counted env q l w :
  reliable_redis env →
  let k := "clicks:" +:+ q +:+ ":" +:+ l in
  let out := store_click_data env q l w in
  click_key q l = k
  ∧ (db w !! k = None →
     fst out = Return tt
     ∧ db (snd out) = <[k := RHash {[ "count" := 1 ]}]> (db w)
     ∧ click_count (snd out) q l = Some 1
     ∧ trace (snd out)
         = trace w ++ [ RedisCall (EXISTS k);
                        RedisCall (HSET k {[ "count" := 1 ]}) ])
  ∧ (∀ h c,
       db w !! k = Some (RHash h) → h !! "count" = Some c →
       fst out = Return tt
       ∧ db (snd out) = <[k := RHash (<["count" := c + 1]> h)]> (db w)
       ∧ click_count (snd out) q l = Some (c + 1)
       ∧ trace (snd out)
           = trace w ++ [ RedisCall (EXISTS k);
                          RedisCall (HINCRBY k "count" 1) ])
  ∧ (db w !! k = None →
     click_count
       (snd ((store_click_data env q l;; store_click_data env q l;;
              store_click_data env q l;; store_click_data env q l) w)) q l
       = Some 4).
Proof.
  intros Hr k out. split; [done|]. split; [|split].
  - intros Hk. unfold out. rewrite (store_click_data_new _ _ _ _ Hr Hk).
    simpl. repeat split; try done.
    unfold click_count. simpl. rewrite lookup_insert_eq.
    apply lookup_singleton_eq.
  - intros h c Hk Hc. unfold out.
    rewrite (store_click_data_existing _ _ _ _ _ Hr Hk). rewrite Hc.
    simpl. repeat split; try done.
    unfold click_count. simpl. rewrite lookup_insert_eq.
    apply lookup_insert_eq.
  - intros Hk.
    change (store_click_data env q l;; store_click_data env q l;;
            store_click_data env q l;; store_click_data env q l)
      with (store_click_data env q l;;
            (store_click_data env q l;; store_click_data env q l;;
             store_click_data env q l)).
    run_M. rewrite (store_click_data_new _ _ _ _ Hr Hk).
    set (w1 := mkWorld _ _).
    assert (Hc1 : click_count w1 q l = Some 1).
    { unfold click_count, w1. simpl. rewrite lookup_insert_eq.
      apply lookup_singleton_eq. }
    destruct (clicks_count env q l 3 w1 1 Hr Hc1) as [_ H3].
    revert H3. simpl. run_M.
    destruct (store_click_data env q l w1) as [[[]|e1] w2]; [|done].
    destruct (store_click_data env q l w2) as [[[]|e2] w3]; [|done].
    by destruct (store_click_data env q l w3) as [[[]|e3] w4].
Qed.

Lemma click_is_counted_witness :
  reliable_redis Mock.mock_env
  ∧ click_count
      (snd (clicks Mock.mock_env "test query" "http://test.com" 4
              Mock.empty_world)) "test query" "http://test.com" = Some 4
  ∧ db (snd (store_click_data Mock.mock_env "test query" "http://test.com"
               Mock.empty_world))
      !! "clicks:test query:http://test.com"
    = Some (RHash {[ "count" := 1 ]}).
Proof.
  assert (Hr : reliable_redis Mock.mock_env) by (intros w cmd; reflexivity).
  split; [exact Hr|].
  destruct (click_is_counted Mock.mock_env "test query" "http://test.com"
              Mock.empty_world Hr) as (_ & Hnew & _ & Hfour).
  split.
  - rewrite <- (Hfour eq_refl). reflexivity.
  - destruct (Hnew eq_refl) as (_ & -> & _). vm_compute. reflexivity.
Defined.

(** ** Validation of the page number *)

(** Whatever happens, a search starts with the cache lookup. *)
Lemma get_recipes_by_query_trace env q page s w :
  ∃ rest,
    trace (snd (get_recipes_by_query env q page s w))
      = trace w ++ RedisCall (GET (cache_key q)) :: rest.
Proof.
  rewrite get_recipes_by_query_unfold.
  destruct (get_cached_results env q w) as [[c|e] w1] eqn:Hget;
    apply get_cached_results_world in Hget as ->.
  - destruct (optlist_truthy c).
    + by exists [].
    + destruct (perform_search_trace env q page s
                  (record_call (RedisCall (GET (cache_key q))) w))
        as (rest & -> & _).
      exists (EncoderCall q :: rest). simpl. by rewrite <- app_assoc.
  - by exists [].
Qed.

(** C6: for every query and every page [< 1], the endpoint [/recipes]
    answers with the validation error and leaves the world as it was: no
    call to the encoder, to the search index or to Redis is recorded.  This
    tells the validation error from every failure of the search index or of
    the cache: a request with a valid page never answers before it has sent
    at least the cache lookup to Redis. *)
Theorem invalid_page_is_rejected env q page w :
  page < 1 →
  get_recipes env q page w
    = (Return (RecipesError "Page number must be greater than 0"), w)
  ∧ trace (snd (get_recipes env q page w)) = trace w
  ∧ db (snd (get_recipes env q page w)) = db w
  ∧ (∀ page', 1 ≤ page' →
       ∃ rest,
         trace (snd (get_recipes env q page' w))
           = trace w ++ RedisCall (GET (cache_key q)) :: rest).
Proof.
  intros Hp.
  assert (Hout : get_recipes env q page w
    = (Return (RecipesError "Page number must be greater than 0"), w)).
  { unfold get_recipes. destruct (Z.ltb_spec page 1) as [_|?]; [|lia].
    by run_M. }
  rewrite Hout. repeat split; try done.
  intros page' Hp'. rewrite get_recipes_unfold by done.
  destruct (get_recipes_by_query_trace env q page' items_per_page_default w)
    as [rest Ht].
  exists rest.
  by destruct (get_recipes_by_query env q page' items_per_page_default w)
    as [[r|e] w'].
Qed.

Lemma invalid_page_is_rejected_witness :
  0 < 1
  ∧ get_recipes (Mock.outage (mkExn ConnectionError "Connection refused"))
      "test query" 0 Mock.empty_world
    = (Return (RecipesError "Page number must be greater than 0"),
       Mock.empty_world).
Proof.
  split; [lia|].
  apply (invalid_page_is_rejected
           (Mock.outage (mkExn ConnectionError "Connection refused"))
           "test query" 0 Mock.empty_world).
  lia.
Defined.

(** ** Cache keys *)

Lemma cache_key_inj q1 q2 : cache_key q1 = cache_key q2 → q1 = q2.
Proof. unfold cache_key. intros H. by simplify_eq/=. Qed.

Lemma cache_results_ok env q r w :
  redis_fault env w (SETEX (cache_key q) 3 (py_str env r)) = None →
  cache_results env q r w
    = (Return tt,
       mkWorld (<[cache_key q := RString (py_str env r) 3]> (db w))
         (trace w ++ [RedisCall (SETEX (cache_key q) 3 (py_str env r))])).
Proof.
  intros Hf. unfold cache_results, REDIS_CLIENT_setex, redis_call.
  run_M. unfold CACHE_EXPIRATION. by rewrite Hf.
Qed.

(** C7: the cache key of a query is ["search_cache:" + query_text], with
    the text as it is.  Both the lookup and the write address Redis with
    this key.  Hence two query strings that differ (as "Pasta" and "pasta"
    do) have two different keys, and caching results for both leaves two
    entries, each with its own results. *)
Theorem cache_key_is_exact env q1 q2 :
  q1 ≠ q2 →
  cache_key q1 = "search_cache:" +:+ q1
  ∧ cache_key q1 ≠ cache_key q2
  ∧ cache_key "Pasta" ≠ cache_key "pasta"
  ∧ (∀ w, snd (get_cached_results env q1 w)
            = record_call (RedisCall (GET ("search_cache:" +:+ q1))) w)
  ∧ (∀ w r,
       trace (snd (cache_results env q1 r w))
         = trace w
             ++ [RedisCall (SETEX ("search_cache:" +:+ q1) 3 (py_str env r))])
  ∧ (∀ w r1 r2,
       reliable_redis env →
       let w' := snd ((cache_results env q1 r1;;
                       cache_results env q2 r2) w) in
       db w' !! cache_key q1 = Some (RString (py_str env r1) 3)
       ∧ db w' !! cache_key q2 = Some (RString (py_str env r2) 3)).
Proof.
  intros Hne.
  assert (Hk : cache_key q1 ≠ cache_key q2).
  { by intros ?%cache_key_inj. }
  split; [done|]. split; [done|]. split; [done|]. split; [|split].
  - intros w.
    destruct (get_cached_results env q1 w) as [o w'] eqn:Hget.
    by apply get_cached_results_world in Hget.
  - intros w r. unfold cache_results, REDIS_CLIENT_setex, redis_call.
    run_M. by destruct (redis_fault env w _).
  - intros w r1 r2 Hr. run_M.
    rewrite (cache_results_ok _ _ _ _ (Hr _ _)).
    rewrite (cache_results_ok _ _ _ _ (Hr _ _)). simpl.
    split.
    + rewrite lookup_insert_ne by done. apply lookup_insert_eq.
    + apply lookup_insert_eq.
Qed.

Lemma cache_key_is_exact_witness :
  "Pasta" ≠ "pasta"
  ∧ cache_key "Pasta" ≠ cache_key "pasta"
  ∧ size (db (snd ((cache_results Mock.mock_env "Pasta" [];;
                     cache_results Mock.mock_env "pasta" [])
                    Mock.empty_world))) = 2%nat.
Proof.
  assert (Hne : "Pasta" ≠ "pasta") by discriminate.
  split; [exact Hne|].
  split.
  - exact (proj1 (proj2 (cache_key_is_exact Mock.mock_env "Pasta" "pasta"
                           Hne))).
  - vm_compute. reflexivity.
Defined.

(** ** Items *)

Lemma item_of_dom doc : dom (item_of doc) = ({[ "title"; "link" ]} : gset string).
Proof. unfold item_of. rewrite !dom_insert_L. set_solver. Qed.

(** C10: every item of the list [get_recipes_by_query] builds from the
    documents the index returned is a dict with exactly the two keys
    "title" and "link": there is one item per document, in the order of
    the documents; its title and link are those of the document, and when
    the document lacks one of them the item still has both keys, the
    missing value being 'No title available', resp. 'No link available'.
    So are the items of every page returned on the miss path. *)
Theorem built_items_have_title_and_link env q page s w c w1 r w' :
  get_cached_results env q w = (Return c, w1) →
  optlist_truthy c = false →
  get_recipes_by_query env q page s w = (Return r, w') →
  Forall (λ item : Item, dom item = ({[ "title"; "link" ]} : gset string)) r
  ∧ ∀ docs : list Doc,
      Forall2
        (λ (doc : Doc) (item : Item),
           dom item = ({[ "title"; "link" ]} : gset string)
           ∧ (∀ t, doc !! "$.title" = Some t → item !! "title" = Some t)
           ∧ (doc !! "$.title" = None →
              item !! "title" = Some "No title available")
           ∧ (∀ k, doc !! "$.link" = Some k → item !! "link" = Some k)
           ∧ (doc !! "$.link" = None →
              item !! "link" = Some "No link available"))
        docs (fold_left append_doc docs []).
Proof.
  intros Hget Hc Hq.
  assert (Hitems : ∀ docs : list Doc,
    Forall2
      (λ (doc : Doc) (item : Item),
         dom item = ({[ "title"; "link" ]} : gset string)
         ∧ (∀ t, doc !! "$.title" = Some t → item !! "title" = Some t)
         ∧ (doc !! "$.title" = None →
            item !! "title" = Some "No title available")
         ∧ (∀ k, doc !! "$.link" = Some k → item !! "link" = Some k)
         ∧ (doc !! "$.link" = None →
            item !! "link" = Some "No link available"))
      docs (fold_left append_doc docs [])).
  { intros docs. fold (results_of docs). rewrite results_of_map.
    induction docs as [|doc docs IH]; simpl; constructor; [|done].
    split; [apply item_of_dom|].
    unfold item_of, getattr.
    rewrite lookup_insert_eq, lookup_insert_ne, lookup_insert_eq by done.
    repeat split.
    - by intros t ->.
    - by intros ->.
    - by intros k ->.
    - by intros ->. }
  split; [|done].
  rewrite get_recipes_by_query_unfold, Hget, Hc in Hq.
  destruct (encode env w1 q) as [v|e] eqn:He.
  2: { by rewrite (perform_search_encoder_raises _ _ _ _ _ _ He) in Hq. }
  destruct (ft_search env (encoded q w1) (float16_tobytes env v))
    as [docs|e] eqn:Hs.
  2: { by rewrite (perform_search_index_raises _ _ _ _ _ _ _ He Hs) in Hq. }
  rewrite (perform_search_found _ _ _ _ _ _ _ He Hs) in Hq.
  assert (Hr : r = page_of (results_of docs) page s).
  { destruct (redis_fault env _ _) as [e|];
      [destruct (is_OutOfMemoryError e)|]; congruence. }
  apply Forall_forall. intros item Hin. rewrite Hr in Hin.
  apply py_slice_elem_of in Hin. rewrite results_of_map in Hin.
  apply list_elem_of_fmap in Hin as (doc & -> & _). apply item_of_dom.
Qed.

Lemma built_items_have_title_and_link_witness :
  let env := Mock.mock_env in
  let w1 := record_call (RedisCall (GET (cache_key "test query")))
              Mock.empty_world in
  let out := get_recipes_by_query env "test query" 1 2 Mock.empty_world in
  let doc : Doc := {[ "$.link" := "http://test1.com" ]} in
  get_cached_results env "test query" Mock.empty_world = (Return None, w1)
  ∧ optlist_truthy (@None (list Item)) = false
  ∧ out = (Return (take 2 Mock.MOCK_CACHED_RESULTS), snd out)
  ∧ Forall (λ item : Item, dom item = ({[ "title"; "link" ]} : gset string))
      (take 2 Mock.MOCK_CACHED_RESULTS)
  ∧ ∀ item : Item,
      fold_left append_doc [doc] [] !! 0%nat = Some item →
      item !! "title" = Some "No title available"
      ∧ item !! "link" = Some "http://test1.com".
Proof.
  intros env w1 out doc.
  assert (Hout : out = (Return (take 2 Mock.MOCK_CACHED_RESULTS), snd out)).
  { vm_compute. reflexivity. }
  do 2 (split; [reflexivity|]). split; [exact Hout|].
  destruct (built_items_have_title_and_link env "test query" 1 2
              Mock.empty_world None w1 _ _ eq_refl eq_refl Hout)
    as [Hdom Hitems].
  split; [exact Hdom|].
  intros item Hitem.
  destruct (Forall2_lookup_lr _ _ _ 0%nat doc item (Hitems [doc])
              eq_refl Hitem) as (_ & _ & Htitle & Hlink & _).
  split; [apply Htitle | apply Hlink]; reflexivity.
Defined.

(** ** What a search and a click do to the world *)

Lemma cache_key_click_key q q' l' : cache_key q ≠ click_key q' l'.
Proof. unfold cache_key, click_key. intros H. by simplify_eq/=. Qed.


(** All the effects of recording a click, whatever Redis does. *)
Lemma store_click_data_effects env q l w :
  ∃ evs,
    trace (snd (store_click_data env q l w))
      = trace w ++ RedisCall (EXISTS (click_key q l)) :: evs
    ∧ Forall (click_event q l) evs
    ∧ (length evs ≤ 1)%nat
    ∧ (db (snd (store_click_data env q l w)) = db w
       ∨ ∃ h,
           db (snd (store_click_data env q l w))
             = <[click_key q l := RHash h]> (db w)).
Proof.
  unfold store_click_data, REDIS_CLIENT_exists, REDIS_CLIENT_hincrby,
    REDIS_CLIENT_hset, redis_call.
  run_M.
  destruct (redis_fault env w _) as [e|].
  { exists []. simpl. repeat split; [constructor|lia|by left]. }
  destruct (db w !! click_key q l) as [[payload ttl|h]|] eqn:Hk; simpl.
  - exists [RedisCall (HINCRBY (click_key q l) "count" 1)].
    destruct (redis_fault env _ _) as [e|]; simpl; rewrite ?Hk; simpl;
      rewrite <- app_assoc;
      (repeat split; [events_ok|lia|by left]).
  - exists [RedisCall (HINCRBY (click_key q l) "count" 1)].
    destruct (redis_fault env _ _) as [e|]; simpl; rewrite ?Hk; simpl;
      rewrite <- app_assoc;
      (repeat split; [events_ok|lia|]); [by left|right; eauto].
  - exists [RedisCall (HSET (click_key q l) {[ "count" := 1 ]})].
    destruct (redis_fault env _ _) as [e|]; simpl; rewrite ?Hk; simpl;
      rewrite <- app_assoc;
      (repeat split; [events_ok|lia|]); [by left|right; eauto].
Qed.

(** Whatever a search returns is a page of some list: the cached one or
    the one built from the documents found. *)
Lemma get_recipes_by_query_page env q page s w r w' :
  get_recipes_by_query env q page s w = (Return r, w') →
  ∃ full : list Item, r = page_of full page s.
Proof.
  rewrite get_recipes_by_query_unfold.
  destruct (get_cached_results env q w) as [[c|e0] w1]; [|done].
  destruct (optlist_truthy c); [intros [= <- _]; eauto|].
  destruct (encode env w1 q) as [v|e] eqn:He.
  2: { by rewrite (perform_search_encoder_raises _ _ _ _ _ _ He). }
  destruct (ft_search env (encoded q w1) (float16_tobytes env v))
    as [docs|e] eqn:Hs.
  2: { by rewrite (perform_search_index_raises _ _ _ _ _ _ _ He Hs). }
  rewrite (perform_search_found _ _ _ _ _ _ _ He Hs).
  destruct (redis_fault env _ _) as [e|];
    [destruct (is_OutOfMemoryError e)|]; intros [= <- _]; eauto.
Qed.




(** X3: recording a click changes no key of Redis but the key of its
    (query, link) pair, so no cache entry; whatever Redis does, it sends
    EXISTS on that key and then at most one command more, HSET of count 1
    or HINCRBY of count by 1 on the same key. *)
Theorem click_keeps_other_keys env q l w k :
  k ≠ click_key q l →
  db (snd (store_click_data env q l w)) !! k = db w !! k
  ∧ (∀ q', db (snd (store_click_data env q l w)) !! cache_key q'
             = db w !! cache_key q')
  ∧ ∃ evs,
      trace (snd (store_click_data env q l w))
        = trace w ++ RedisCall (EXISTS (click_key q l)) :: evs
      ∧ Forall (click_event q l) evs
      ∧ (length evs ≤ 1)%nat.
Proof.
  intros Hk.
  destruct (store_click_data_effects env q l w)
    as (evs & Ht & Hev & Hlen & Hdb).
  split; [|split; [|eauto]].
  - destruct Hdb as [->|[h ->]]; [done|]. by rewrite lookup_insert_ne.
  - intros q'. destruct Hdb as [->|[h ->]]; [done|].
    rewrite lookup_insert_ne; [done|].
    intros Heq. by apply (cache_key_click_key q' q l).
Qed.

Lemma click_keeps_other_keys_witness :
  cache_key "test query" ≠ click_key "test query" "http://test1.com"
  ∧ db (snd (store_click_data Mock.mock_env "test query" "http://test1.com"
               Mock.cached_world)) !! cache_key "test query"
    = Some (RString (Mock.mock_str Mock.MOCK_CACHED_RESULTS) 3).
Proof.
  assert (Hk : cache_key "test query"
               ≠ click_key "test query" "http://test1.com")
    by discriminate.
  split; [exact Hk|].
  rewrite (proj1 (click_keeps_other_keys Mock.mock_env "test query"
                    "http://test1.com" Mock.cached_world _ Hk)).
  vm_compute. reflexivity.
Defined.

(** ** More on the endpoints and on pagination *)


(** X5: a page answered by [/recipes] never has more than 3 results, and
    it reports [has_more = false] exactly when it has fewer than 3. *)
Theorem page_has_at_most_three_results env q page w rq rp results has_more :
  1 ≤ page →
  fst (get_recipes env q page w)
    = Return (RecipesPage rq rp results has_more) →
  (length results ≤ 3)%nat
  ∧ (has_more = false ↔ (length results < 3)%nat).
Proof.
  intros Hp. rewrite get_recipes_unfold by done.
  destruct (get_recipes_by_query env q page items_per_page_default w)
    as [[r|e] w'] eqn:Hq; simpl; [|done].
  intros [= _ _ <- <-].
  apply get_recipes_by_query_page in Hq as [full ->].
  assert (Hlen : (length (page_of full page items_per_page_default) ≤ 3)%nat).
  { rewrite page_of_length by (unfold items_per_page_default; lia).
    unfold items_per_page_default. lia. }
  split; [done|].
  destruct (Z.eqb_spec (Z.of_nat
    (length (page_of full page items_per_page_default))) 3); split;
    intros; try done; lia.
Qed.

Lemma page_has_at_most_three_results_witness :
  1 ≤ 1
  ∧ fst (get_recipes Mock.mock_env "test query" 1 Mock.cached_world)
    = Return (RecipesPage "test query" 1 Mock.MOCK_CACHED_RESULTS true)
  ∧ (length Mock.MOCK_CACHED_RESULTS ≤ 3)%nat.
Proof.
  assert (Hout : fst (get_recipes Mock.mock_env "test query" 1
                        Mock.cached_world)
    = Return (RecipesPage "test query" 1 Mock.MOCK_CACHED_RESULTS true)).
  { vm_compute. reflexivity. }
  split; [lia|]. split; [exact Hout|].
  exact (proj1 (page_has_at_most_three_results Mock.mock_env "test query" 1
                  Mock.cached_world _ _ _ _ ltac:(lia) Hout)).
Defined.

(** X6: the pages cut out of a list with a positive page size follow one
    another without gap or overlap: the first [n] pages, one after the
    other, are the first [n * s] items of the list, and hence the whole
    list as soon as [n * s] reaches its length. *)
Theorem pagination_partitions (l : list Item) s n :
  0 < s →
  concat (pages l s n) = take (n * Z.to_nat s) l
  ∧ ((length l ≤ n * Z.to_nat s)%nat → concat (pages l s n) = l).
Proof.
  intros Hs.
  assert (Hcat : concat (pages l s n) = take (n * Z.to_nat s) l).
  { unfold pages. induction n as [|n IH]; [by rewrite take_0|].
    rewrite seq_S, map_app, concat_app, IH. simpl.
    rewrite app_nil_r, page_of_take_drop by lia.
    replace (Z.to_nat ((Z.of_nat (S n) - 1) * s))
      with (n * Z.to_nat s)%nat by nia.
    rewrite take_take_drop. f_equal. lia. }
  split; [done|]. intros Hlen. rewrite Hcat. by apply take_ge.
Qed.

Lemma pagination_partitions_witness :
  0 < 2
  ∧ concat (pages Mock.MOCK_CACHED_RESULTS 2 2) = Mock.MOCK_CACHED_RESULTS.
Proof.
  split; [lia|].
  apply (pagination_partitions Mock.MOCK_CACHED_RESULTS 2 2); [lia|].
  simpl. lia.
Defined.

(** X7: [get_recipes_by_query] itself does not check the page number.  On
    a cache hit, page 0 is the empty page for every page size, and a
    negative page wraps around: with a positive page size [s], page [p < 0]
    is made of the [s] items that start [(1 - p) * s] items before the end
    of the list, when the list is that long. *)
Theorem page_zero_and_negative_pages env w q (l : list Item) s :
  cache_hit env w q l → l ≠ [] →
  fst (get_recipes_by_query env q 0 s w) = Return []
  ∧ ∀ p, p < 0 → 0 < s → (1 - p) * s ≤ Z.of_nat (length l) →
      fst (get_recipes_by_query env q p s w)
        = Return (take (Z.to_nat s)
                    (drop (Z.to_nat (Z.of_nat (length l) - (1 - p) * s)) l)).
Proof.
  intros Hhit Hne.
  assert (Hq : ∀ p, fst (get_recipes_by_query env q p s w)
                      = Return (page_of l p s)).
  { intros p. rewrite get_recipes_by_query_unfold.
    rewrite (get_cached_results_hit _ _ _ _ Hhit). by destruct l. }
  split.
  - rewrite Hq. f_equal. unfold page_of, py_slice, slice_bound.
    replace ((0 - 1) * s + s) with 0 by lia. simpl.
    rewrite Z.min_l by lia.
    destruct ((0 - 1) * s <? 0) eqn:Hneg.
    + replace (Z.to_nat (0 - Z.max 0 ((0 - 1) * s + Z.of_nat (length l))))
        with 0%nat by lia.
      apply take_0.
    + apply Z.ltb_ge in Hneg.
      replace (Z.to_nat (0 - Z.min ((0 - 1) * s) (Z.of_nat (length l))))
        with 0%nat by lia.
      apply take_0.
  - intros p Hp Hs Hlen. rewrite Hq. f_equal.
    unfold page_of, py_slice, slice_bound.
    destruct (Z.ltb_spec ((p - 1) * s) 0) as [_|?]; [|nia].
    destruct (Z.ltb_spec ((p - 1) * s + s) 0) as [_|?]; [|nia].
    rewrite !Z.max_r by nia. f_equal; [|f_equal]; nia.
Qed.

Lemma page_zero_and_negative_pages_witness :
  cache_hit Mock.mock_env Mock.cached_world "test query"
    Mock.MOCK_CACHED_RESULTS
  ∧ Mock.MOCK_CACHED_RESULTS ≠ []
  ∧ fst (get_recipes_by_query Mock.mock_env "test query" 0 3
           Mock.cached_world) = Return []
  ∧ fst (get_recipes_by_query Mock.mock_env "test query" (-1) 1
           Mock.cached_world) = Return (take 1 (drop 1 Mock.MOCK_CACHED_RESULTS)).
Proof.
  assert (Hhit : cache_hit Mock.mock_env Mock.cached_world "test query"
                   Mock.MOCK_CACHED_RESULTS).
  { split; [reflexivity|].
    exists (Mock.mock_str Mock.MOCK_CACHED_RESULTS), 3.
    split; [vm_compute; reflexivity|].
    split; [discriminate | vm_compute; reflexivity]. }
  assert (Hne : Mock.MOCK_CACHED_RESULTS ≠ []) by discriminate.
  split; [exact Hhit|]. split; [exact Hne|].
  destruct (page_zero_and_negative_pages Mock.mock_env Mock.cached_world
              "test query" Mock.MOCK_CACHED_RESULTS 3 Hhit Hne) as [Hz _].
  split; [exact Hz|].
  destruct (page_zero_and_negative_pages Mock.mock_env Mock.cached_world
              "test query" Mock.MOCK_CACHED_RESULTS 1 Hhit Hne) as [_ Hn].
  rewrite (Hn (-1)); [reflexivity|lia|lia|simpl; lia].
Defined.

(** ** The cache, read and written *)

(** X8: a failure of the cache lookup is fatal to the search, unlike a
    failure of the cache write: when Redis refuses the GET, or the payload
    found does not deserialise, [get_recipes_by_query] raises that very
    exception after the lookup alone, without calling the encoder or the
    index, and [/recipes] answers [{error: str(e)}]. *)
Theorem cache_read_failure_is_fatal env q page s w e :
  redis_fault env w (GET (cache_key q)) = Some e
  ∨ (redis_fault env w (GET (cache_key q)) = None
     ∧ ∃ payload ttl,
         db w !! cache_key q = Some (RString payload ttl)
         ∧ payload ≠ "" ∧ py_eval env payload = Raise e) →
  get_recipes_by_query env q page s w
    = (Raise e, record_call (RedisCall (GET (cache_key q))) w)
  ∧ (1 ≤ page →
     get_recipes env q page w
       = (Return (RecipesError (exc_str e)),
          record_call (RedisCall (GET (cache_key q))) w)).
Proof.
  intros Hcause.
  assert (Hget : get_cached_results env q w
                 = (Raise e, record_call (RedisCall (GET (cache_key q))) w)).
  { unfold get_cached_results, REDIS_CLIENT_get, redis_call. run_M.
    destruct Hcause as [->|[-> (payload & ttl & -> & Hne & Hev)]]; [done|].
    simpl. destruct payload; [done|]. simpl. by rewrite Hev. }
  assert (Hq : ∀ s', get_recipes_by_query env q page s' w
                 = (Raise e, record_call (RedisCall (GET (cache_key q))) w)).
  { intros s'. by rewrite get_recipes_by_query_unfold, Hget. }
  split; [done|]. intros Hp. by rewrite get_recipes_unfold, Hq.
Qed.

Lemma cache_read_failure_is_fatal_witness :
  let env := Mock.mock_env in
  let w := mkWorld {[ cache_key "test query" := RString "{not a list" 3 ]} []
  in
  let e := mkExn SyntaxError "invalid syntax" in
  (redis_fault env w (GET (cache_key "test query")) = Some e
   ∨ (redis_fault env w (GET (cache_key "test query")) = None
      ∧ ∃ payload ttl,
          db w !! cache_key "test query" = Some (RString payload ttl)
          ∧ payload ≠ "" ∧ py_eval env payload = Raise e))
  ∧ fst (get_recipes env "test query" 1 w)
    = Return (RecipesError "invalid syntax").
Proof.
  intros env w e.
  assert (Hcause :
    redis_fault env w (GET (cache_key "test query")) = Some e
    ∨ (redis_fault env w (GET (cache_key "test query")) = None
       ∧ ∃ payload ttl,
           db w !! cache_key "test query" = Some (RString payload ttl)
           ∧ payload ≠ "" ∧ py_eval env payload = Raise e)).
  { right. split; [reflexivity|]. exists "{not a list", 3.
    split; [vm_compute; reflexivity|].
    split; [discriminate|vm_compute; reflexivity]. }
  split; [exact Hcause|].
  destruct (cache_read_failure_is_fatal env "test query" 1 3 w e Hcause)
    as [_ Hr].
  rewrite (Hr ltac:(lia)). reflexivity.
Defined.



(** The search half calls the encoder exactly once, whatever happens. *)
Lemma perform_search_encoder_once env q page s w :
  encoder_calls (trace (snd (perform_search env q page s w)))
    = S (encoder_calls (trace w)).
Proof.
  destruct (encode env w q) as [v|e] eqn:He.
  - destruct (ft_search env (encoded q w) (float16_tobytes env v))
      as [docs|e] eqn:Hs.
    + rewrite (perform_search_found _ _ _ _ _ _ _ He Hs).
      destruct (redis_fault env _ _) as [e|];
        [destruct (is_OutOfMemoryError e)|]; simpl;
        rewrite !encoder_calls_app; unfold encoder_calls; simpl; lia.
    + rewrite (perform_search_index_raises _ _ _ _ _ _ _ He Hs). simpl.
      rewrite !encoder_calls_app. unfold encoder_calls. simpl. lia.
  - rewrite (perform_search_encoder_raises _ _ _ _ _ _ He). simpl.
    rewrite !encoder_calls_app. unfold encoder_calls. simpl. lia.
Qed.

(** X10: an empty result set is written to the cache but never served
    from it.  When a search misses, the index finds no document, the write
    goes through and [str] and [eval] agree on the empty list, the cache
    holds the empty list for the query, and yet the next search for it
    runs the search half again: the encoder is called once more. *)
Theorem empty_result_set_is_searched_again env w q page s v page' s' :
  cache_miss env w q →
  let w1 := record_call (RedisCall (GET (cache_key q))) w in
  encode env w1 q = Return v →
  ft_search env (encoded q w1) (float16_tobytes env v) = Return [] →
  redis_fault env (searched env q v w1) (cache_write env q []) = None →
  roundtrips env [] →
  let w' := snd (get_recipes_by_query env q page s w) in
  redis_fault env w' (GET (cache_key q)) = None →
  let out := get_recipes_by_query env q page' s' w' in
  fst (get_recipes_by_query env q page s w) = Return []
  ∧ db w' !! cache_key q = Some (RString (py_str env []) 3)
  ∧ out = perform_search env q page' s'
            (record_call (RedisCall (GET (cache_key q))) w')
  ∧ encoder_calls (trace (snd out)) = S (encoder_calls (trace w')).
Proof.
  intros Hmiss w1 He Hs Hw [Hstr Heval] w' Hget out.
  assert (Hfirst : get_recipes_by_query env q page s w
    = (Return (page_of [] page s),
       set_db (<[cache_key q := RString (py_str env []) CACHE_EXPIRATION]>
                 (db w))
         (record_call (RedisCall (cache_write env q []))
            (searched env q v w1)))).
  { rewrite get_recipes_by_query_unfold.
    rewrite (get_cached_results_miss _ _ _ Hmiss). simpl.
    rewrite (perform_search_found _ _ _ _ _ _ _ He Hs). fold w1.
    by rewrite Hw. }
  assert (Hhit : cache_hit env w' q []).
  { split; [done|]. exists (py_str env []), CACHE_EXPIRATION.
    split; [|done]. unfold w'. rewrite Hfirst. simpl.
    apply lookup_insert_eq. }
  assert (Hout : out = perform_search env q page' s'
                         (record_call (RedisCall (GET (cache_key q))) w')).
  { unfold out. rewrite get_recipes_by_query_unfold.
    by rewrite (get_cached_results_hit _ _ _ _ Hhit). }
  split.
  { rewrite Hfirst. simpl. unfold page_of, py_slice.
    by rewrite drop_nil, take_nil. }
  split; [unfold w'; rewrite Hfirst; apply lookup_insert_eq|].
  split; [done|]. rewrite Hout.
  rewrite perform_search_encoder_once. simpl. rewrite encoder_calls_app.
  unfold encoder_calls. simpl. lia.
Qed.

Lemma empty_result_set_is_searched_again_witness :
  let env := Mock.env_with (Return [1; 2; 3]) (Return []) (fun _ => None) in
  let w := Mock.empty_world in
  let w1 := record_call (RedisCall (GET (cache_key "test query"))) w in
  let v : Embedding env := [1; 2; 3] in
  let w' := snd (get_recipes_by_query env "test query" 1 3 w) in
  cache_miss env w "test query"
  ∧ encode env w1 "test query" = Return v
  ∧ ft_search env (encoded "test query" w1) (float16_tobytes env v)
    = Return []
  ∧ redis_fault env (searched env "test query" v w1)
      (cache_write env "test query" []) = None
  ∧ roundtrips env []
  ∧ redis_fault env w' (GET (cache_key "test query")) = None
  ∧ encoder_calls
      (trace (snd (get_recipes_by_query env "test query" 1 3 w')))
    = 2%nat.
Proof.
  intros env w w1 v w'.
  assert (Hmiss : cache_miss env w "test query") by (split; reflexivity).
  assert (Hround : roundtrips env []).
  { split; [discriminate|vm_compute; reflexivity]. }
  split; [exact Hmiss|]. do 3 (split; [reflexivity|]).
  split; [exact Hround|]. split; [reflexivity|].
  destruct (empty_result_set_is_searched_again env w "test query" 1 3 v
              1 3 Hmiss eq_refl eq_refl eq_refl Hround eq_refl)
    as (_ & _ & _ & Henc).
  etrans; [exact Henc|]. vm_compute. reflexivity.
Defined.

(** ** The has-more signal over a cached list *)

(** What [/recipes] answers on a cache hit. *)
Lemma get_recipes_hit env w q (l : list Item) page :
  cache_hit env w q l → l ≠ [] → 1 ≤ page →
  fst (get_recipes env q page w)
    = Return (RecipesPage q page (page_of l page 3)
                (Z.of_nat (length (page_of l page 3)) =? 3)).
Proof.
  intros Hhit Hne Hp. rewrite get_recipes_unfold by done.
  rewrite get_recipes_by_query_unfold.
  rewrite (get_cached_results_hit _ _ _ _ Hhit).
  by destruct l.
Qed.

(** X11: over a cached list, [has_more = false] can be relied on: when
    [/recipes] answers page [page] with [has_more = false], the page after
    it is empty. *)
Theorem has_more_false_means_last_page env w q (l : list Item) page r :
  cache_hit env w q l → l ≠ [] → 1 ≤ page →
  fst (get_recipes env q page w) = Return (RecipesPage q page r false) →
  fst (get_recipes env q (page + 1) w)
    = Return (RecipesPage q (page + 1) [] false).
Proof.
  intros Hhit Hne Hp.
  rewrite !(get_recipes_hit _ _ _ l) by (done || lia).
  intros [= Hr Hmore]. apply Z.eqb_neq in Hmore.
  rewrite page_of_length in Hmore by lia.
  rewrite page_of_out_of_range; [done|lia..].
Qed.

Lemma has_more_false_means_last_page_witness :
  cache_hit Mock.mock_env Mock.cached_world "test query"
    Mock.MOCK_CACHED_RESULTS
  ∧ Mock.MOCK_CACHED_RESULTS ≠ []
  ∧ 1 ≤ 2
  ∧ fst (get_recipes Mock.mock_env "test query" 2 Mock.cached_world)
    = Return (RecipesPage "test query" 2 [] false)
  ∧ fst (get_recipes Mock.mock_env "test query" (2 + 1) Mock.cached_world)
    = Return (RecipesPage "test query" (2 + 1) [] false).
Proof.
  assert (Hhit : cache_hit Mock.mock_env Mock.cached_world "test query"
                   Mock.MOCK_CACHED_RESULTS).
  { split; [reflexivity|].
    exists (Mock.mock_str Mock.MOCK_CACHED_RESULTS), 3.
    split; [vm_compute; reflexivity|].
    split; [discriminate | vm_compute; reflexivity]. }
  assert (Hne : Mock.MOCK_CACHED_RESULTS ≠ []) by discriminate.
  assert (Hpage : fst (get_recipes Mock.mock_env "test query" 2
                         Mock.cached_world)
                  = Return (RecipesPage "test query" 2 [] false)).
  { vm_compute. reflexivity. }
  split; [exact Hhit|]. split; [exact Hne|]. split; [lia|].
  split; [exact Hpage|].
  exact (has_more_false_means_last_page Mock.mock_env Mock.cached_world
           "test query" Mock.MOCK_CACHED_RESULTS 2 [] Hhit Hne
           ltac:(lia) Hpage).
Defined.

(** X12: [has_more = true] is only an approximation: over a cached list of
    exactly [3 * n] items, [n >= 1], the last page [n] is full and is
    answered with [has_more = true], although the page after it is
    empty. *)
Theorem full_last_page_reports_more env w q (l : list Item) (n : nat) :
  cache_hit env w q l →
  (1 ≤ n)%nat → length l = (3 * n)%nat →
  fst (get_recipes env q (Z.of_nat n) w)
    = Return (RecipesPage q (Z.of_nat n) (drop (3 * (n - 1)) l) true)
  ∧ fst (get_recipes env q (Z.of_nat n + 1) w)
    = Return (RecipesPage q (Z.of_nat n + 1) [] false).
Proof.
  intros Hhit Hn Hl.
  assert (Hne : l ≠ []) by (destruct l; [simpl in Hl; lia|done]).
  rewrite !(get_recipes_hit _ _ _ l) by (done || lia).
  split.
  - rewrite page_of_take_drop by lia.
    replace (Z.to_nat ((Z.of_nat n - 1) * 3)) with (3 * (n - 1))%nat by lia.
    rewrite take_ge by (rewrite length_drop; lia).
    rewrite length_drop.
    by replace (Z.of_nat (length l - 3 * (n - 1)) =? 3) with true
      by (symmetry; apply Z.eqb_eq; lia).
  - rewrite page_of_out_of_range; [done|lia..].
Qed.

Lemma full_last_page_reports_more_witness :
  cache_hit Mock.mock_env Mock.cached_world "test query"
    Mock.MOCK_CACHED_RESULTS
  ∧ (1 ≤ 1)%nat
  ∧ length Mock.MOCK_CACHED_RESULTS = (3 * 1)%nat
  ∧ fst (get_recipes Mock.mock_env "test query" (Z.of_nat 1 + 1)
           Mock.cached_world)
    = Return (RecipesPage "test query" (Z.of_nat 1 + 1) [] false).
Proof.
  assert (Hhit : cache_hit Mock.mock_env Mock.cached_world "test query"
                   Mock.MOCK_CACHED_RESULTS).
  { split; [reflexivity|].
    exists (Mock.mock_str Mock.MOCK_CACHED_RESULTS), 3.
    split; [vm_compute; reflexivity|].
    split; [discriminate | vm_compute; reflexivity]. }
  split; [exact Hhit|]. split; [lia|]. split; [reflexivity|].
  exact (proj2 (full_last_page_reports_more Mock.mock_env Mock.cached_world
                  "test query" Mock.MOCK_CACHED_RESULTS 1 Hhit
                  ltac:(lia) eq_refl)).
Defined.

(** ** Ranking order *)

(** X13: on a miss the page follows the ranking of the index: with
    [page >= 1] and a page size [s >= 0], item [i] of the page returned is
    the item built from document [(page-1)*s + i] of the documents found,
    for every [i < s], and there is no item beyond. *)
Theorem miss_page_follows_index_order env w q page s v docs (i : nat) :
  cache_miss env w q →
  let w1 := record_call (RedisCall (GET (cache_key q))) w in
  encode env w1 q = Return v →
  ft_search env (encoded q w1) (float16_tobytes env v) = Return docs →
  (∀ e, redis_fault env (searched env q v w1) (cache_write env q docs)
          = Some e → is_OutOfMemoryError e = true) →
  1 ≤ page → 0 ≤ s →
  ∃ r,
    fst (get_recipes_by_query env q page s w) = Return r
    ∧ r !! i
      = if decide (Z.of_nat i < s)
        then item_of <$> docs !! (Z.to_nat ((page - 1) * s) + i)%nat
        else None.
Proof.
  intros Hmiss w1 He Hs Hw Hp Hs0.
  exists (page_of (results_of docs) page s). split.
  - rewrite get_recipes_by_query_unfold.
    rewrite (get_cached_results_miss _ _ _ Hmiss). simpl.
    by apply (perform_search_returns _ _ _ _ _ v docs).
  - rewrite page_of_lookup by done. case_decide; [|done].
    by rewrite results_of_map, list_lookup_fmap.
Qed.

Lemma miss_page_follows_index_order_witness :
  let env := Mock.mock_env in
  let w := Mock.empty_world in
  let w1 := record_call (RedisCall (GET (cache_key "test query"))) w in
  let v : Embedding env := [1; 2; 3] in
  cache_miss env w "test query"
  ∧ encode env w1 "test query" = Return v
  ∧ ft_search env (encoded "test query" w1) (float16_tobytes env v)
    = Return Mock.MOCK_REDIS_DOCS
  ∧ 1 ≤ 2 ∧ 0 ≤ 2
  ∧ ∃ r,
      fst (get_recipes_by_query env "test query" 2 2 w) = Return r
      ∧ r !! 0%nat
        = Some (item_of (Mock.MockRedisDoc "Test Recipe 3"
                           "http://test3.com")).
Proof.
  intros env w w1 v.
  assert (Hmiss : cache_miss env w "test query") by (split; reflexivity).
  split; [exact Hmiss|]. do 2 (split; [reflexivity|]).
  split; [lia|]. split; [lia|].
  destruct (miss_page_follows_index_order env w "test query" 2 2 v
              Mock.MOCK_REDIS_DOCS 0 Hmiss eq_refl eq_refl
              ltac:(intros e; discriminate) ltac:(lia) ltac:(lia))
    as (r & Hr & Hi).
  exists r. split; [exact Hr|]. rewrite Hi. reflexivity.
Defined.

(** ** Many clicks *)

(** X14: with a Redis that refuses no command, clicks add up: [n + 1]
    clicks on a (query, link) pair that has no record leave the count
    [n + 1], and [m] clicks on a pair whose count is [c] leave [c + m];
    every one of them returns. *)
Theorem clicks_accumulate env q l (n : nat) w :
  reliable_redis env →
  db w !! click_key q l = None →
  fst (clicks env q l (S n) w) = Return tt
  ∧ click_count (snd (clicks env q l (S n) w)) q l = Some (Z.of_nat (S n))
  ∧ ∀ w0 c (m : nat),
      click_count w0 q l = Some c →
      fst (clicks env q l m w0) = Return tt
      ∧ click_count (snd (clicks env q l m w0)) q l = Some (c + Z.of_nat m).
Proof.
  intros Hr Hk. split; [|split].
  - simpl. run_M. rewrite (store_click_data_new _ _ _ _ Hr Hk).
    apply (clicks_count env q l n _ 1 Hr).
    unfold click_count. simpl. rewrite lookup_insert_eq.
    apply lookup_singleton_eq.
  - simpl. run_M. rewrite (store_click_data_new _ _ _ _ Hr Hk).
    replace (Z.of_nat (S n)) with (1 + Z.of_nat n) by lia.
    apply (clicks_count env q l n _ 1 Hr).
    unfold click_count. simpl. rewrite lookup_insert_eq.
    apply lookup_singleton_eq.
  - intros w0 c m Hc. by apply clicks_count.
Qed.

Lemma clicks_accumulate_witness :
  reliable_redis Mock.mock_env
  ∧ db Mock.empty_world !! click_key "test query" "http://test.com" = None
  ∧ click_count
      (snd (clicks Mock.mock_env "test query" "http://test.com" 7
              Mock.empty_world)) "test query" "http://test.com" = Some 7.
Proof.
  assert (Hr : reliable_redis Mock.mock_env) by (intros w cmd; reflexivity).
  split; [exact Hr|]. split; [reflexivity|].
  exact (proj1 (proj2 (clicks_accumulate Mock.mock_env "test query"
                         "http://test.com" 6 Mock.empty_world Hr eq_refl))).
Defined.

(** ** Start-up *)

(** X15: whenever [get_secret] fails, be it that Secrets Manager raises,
    that the secret has no [SecretString] (then with the [ValueError]
    "Secret value is not a string") or that the string is not JSON, the
    Redis client is built from the environment variables alone: host, user
    name and password as they are set (or [None]), and the port as the
    integer [REDIS_PORT] reads as; start-up fails when [REDIS_PORT] is not
    set or is no integer. *)
Theorem credentials_fall_back_to_environment benv :
  (∃ e, Bootstrap.get_secret_value benv "redis_data" = Raise e)
  ∨ (∃ response,
       Bootstrap.get_secret_value benv "redis_data" = Return response
       ∧ (response !! "SecretString" = None
          ∨ ∃ secret e,
              response !! "SecretString" = Some secret
              ∧ Bootstrap.json_loads benv secret = Raise e)) →
  (∃ e, Bootstrap.get_secret benv "redis_data" = Raise e
        ∧ ((∃ response,
              Bootstrap.get_secret_value benv "redis_data" = Return response
              ∧ response !! "SecretString" = None) →
           e = Bootstrap.ValueError "Secret value is not a string"))
  ∧ match Bootstrap.getenv benv "REDIS_PORT" with
    | None =>
        ∃ msg,
          Bootstrap.REDIS_CLIENT_args benv = Raise (Bootstrap.TypeError msg)
    | Some p =>
        match Bootstrap.int_of_str benv p with
        | None =>
            ∃ msg,
              Bootstrap.REDIS_CLIENT_args benv
                = Raise (Bootstrap.ValueError msg)
        | Some n =>
            Bootstrap.REDIS_CLIENT_args benv
              = Return
                  (Bootstrap.mkRedisArgs
                     (Bootstrap.os_getenv benv "REDIS_HOST") n true
                     (Bootstrap.os_getenv benv "REDIS_USERNAME")
                     (Bootstrap.os_getenv benv "REDIS_PASSWORD"))
        end
    end.
Proof.
  intros Hcause.
  assert (Hsecret : ∃ e, Bootstrap.get_secret benv "redis_data" = Raise e
     ∧ ((∃ response,
           Bootstrap.get_secret_value benv "redis_data" = Return response
           ∧ response !! "SecretString" = None) →
        e = Bootstrap.ValueError "Secret value is not a string")).
  { unfold Bootstrap.get_secret.
    destruct Hcause
      as [[e He]|(response & Hr & [Hnone|(secret & e & Hsome & Hjson)])];
      rewrite ?Hr, ?He.
    - exists e. split; [done|]. intros (response' & ? & _). congruence.
    - rewrite Hnone. eauto.
    - rewrite Hsome, Hjson. exists e. split; [done|].
      intros (response' & ? & Hnone). congruence. }
  split; [done|]. destruct Hsecret as (e & Hsecret & _).
  unfold Bootstrap.REDIS_CLIENT_args, Bootstrap.REDIS_CREDS,
    Bootstrap.subscript.
  rewrite Hsecret.
  set (creds := <["REDIS_PASSWORD" := _]> _).
  assert (Hh : creds !! "REDIS_HOST"
               = Some (Bootstrap.os_getenv benv "REDIS_HOST")).
  { unfold creds. rewrite !lookup_insert_ne by done. apply lookup_insert_eq. }
  assert (Hp : creds !! "REDIS_PORT"
               = Some (Bootstrap.os_getenv benv "REDIS_PORT")).
  { unfold creds. rewrite !lookup_insert_ne by done. apply lookup_insert_eq. }
  assert (Hu : creds !! "REDIS_USERNAME"
               = Some (Bootstrap.os_getenv benv "REDIS_USERNAME")).
  { unfold creds. rewrite !lookup_insert_ne by done. apply lookup_insert_eq. }
  assert (Hpw : creds !! "REDIS_PASSWORD"
                = Some (Bootstrap.os_getenv benv "REDIS_PASSWORD")).
  { unfold creds. apply lookup_insert_eq. }
  rewrite Hh, Hp, Hu, Hpw. simpl.
  destruct (Bootstrap.getenv benv "REDIS_PORT") as [p|] eqn:Hport.
  - assert (Bootstrap.os_getenv benv "REDIS_PORT" = Bootstrap.PyStr p) as ->.
    { unfold Bootstrap.os_getenv. by rewrite Hport. }
    simpl. destruct (Bootstrap.int_of_str benv p) as [n|]; [done|eauto].
  - assert (Bootstrap.os_getenv benv "REDIS_PORT" = Bootstrap.PyNone) as ->.
    { unfold Bootstrap.os_getenv. by rewrite Hport. }
    simpl. eauto.
Qed.

Lemma credentials_fall_back_to_environment_witness :
  let benv := Bootstrap.test_benv (Return ∅) (Return ∅) in
  ((∃ e, Bootstrap.get_secret_value benv "redis_data" = Raise e)
   ∨ (∃ response,
        Bootstrap.get_secret_value benv "redis_data" = Return response
        ∧ (response !! "SecretString" = None
           ∨ ∃ secret e,
               response !! "SecretString" = Some secret
               ∧ Bootstrap.json_loads benv secret = Raise e)))
  ∧ Bootstrap.REDIS_CLIENT_args benv
    = Return (Bootstrap.mkRedisArgs (Bootstrap.PyStr "test-host") 1234 true
                (Bootstrap.PyStr "test-user") (Bootstrap.PyStr "test-pass")).
Proof.
  intros benv.
  assert (Hcause :
    (∃ e, Bootstrap.get_secret_value benv "redis_data" = Raise e)
    ∨ (∃ response,
         Bootstrap.get_secret_value benv "redis_data" = Return response
         ∧ (response !! "SecretString" = None
            ∨ ∃ secret e,
                response !! "SecretString" = Some secret
                ∧ Bootstrap.json_loads benv secret = Raise e))).
  { right. exists ∅. split; [reflexivity|]. left. reflexivity. }
  split; [exact Hcause|].
  exact (proj2 (credentials_fall_back_to_environment benv Hcause)).
Defined.

(** X16: a secret that loads but lacks one of the four keys is fatal: the
    credentials are the secret as it is, the environment variables are not
    used to fill the gap, and building the Redis client raises (a
    [KeyError] for the host when the host is the key that lacks). *)
Theorem incomplete_secret_is_fatal benv creds key :
  Bootstrap.get_secret benv "redis_data" = Return creds →
  key ∈ ["REDIS_HOST"; "REDIS_PORT"; "REDIS_USERNAME"; "REDIS_PASSWORD"] →
  creds !! key = None →
  Bootstrap.REDIS_CREDS benv = creds
  ∧ (∃ e, Bootstrap.REDIS_CLIENT_args benv = Raise e)
  ∧ (key = "REDIS_HOST" →
     Bootstrap.REDIS_CLIENT_args benv
       = Raise (Bootstrap.KeyError "REDIS_HOST")).
Proof.
  intros Hsecret Hkey Hnone.
  assert (Hcreds : Bootstrap.REDIS_CREDS benv = creds).
  { unfold Bootstrap.REDIS_CREDS. by rewrite Hsecret. }
  split; [done|].
  unfold Bootstrap.REDIS_CLIENT_args, Bootstrap.subscript.
  rewrite Hcreds. split.
  - destruct (creds !! "REDIS_HOST") as [h|] eqn:Hh; [|eauto].
    destruct (creds !! "REDIS_PORT") as [p|] eqn:Hp; [|eauto].
    destruct (Bootstrap.py_int benv p) as [n|e]; [|eauto].
    destruct (creds !! "REDIS_USERNAME") as [u|] eqn:Hu; [|eauto].
    destruct (creds !! "REDIS_PASSWORD") as [pw|] eqn:Hpw; [|eauto].
    exfalso. set_unfold in Hkey.
    destruct Hkey as [->|[->|[->|[->|[]]]]]; congruence.
  - intros ->. by rewrite Hnone.
Qed.

Lemma incomplete_secret_is_fatal_witness :
  let creds : gmap string Bootstrap.PyVal :=
    {[ "REDIS_HOST" := Bootstrap.PyStr "cache.example.com";
       "REDIS_PORT" := Bootstrap.PyInt 6379;
       "REDIS_USERNAME" := Bootstrap.PyStr "default" ]} in
  let benv :=
    Bootstrap.test_benv (Return {[ "SecretString" := "{...}" ]})
      (Return creds) in
  Bootstrap.get_secret benv "redis_data" = Return creds
  ∧ "REDIS_PASSWORD"
      ∈ ["REDIS_HOST"; "REDIS_PORT"; "REDIS_USERNAME"; "REDIS_PASSWORD"]
  ∧ creds !! "REDIS_PASSWORD" = None
  ∧ ∃ e, Bootstrap.REDIS_CLIENT_args benv = Raise e.
Proof.
  intros creds benv.
  assert (Hin : "REDIS_PASSWORD"
      ∈ ["REDIS_HOST"; "REDIS_PORT"; "REDIS_USERNAME"; "REDIS_PASSWORD"]).
  { set_solver. }
  split; [reflexivity|]. split; [exact Hin|]. split; [reflexivity|].
  exact (proj1 (proj2 (incomplete_secret_is_fatal benv creds
                         "REDIS_PASSWORD" eq_refl Hin eq_refl))).
Defined.
